(** * Polymarket copy-trading bot: trade surveillance and copy decision

    A shallow embedding of [src/data_listener.py], [src/copy_trader.py] and
    [src/config.py], and the properties of the trade watcher and of the copy
    engine proved on it.

    Conventions of the embedding.

    - A Python [float] is a binary64 value: Rocq's primitive [float], with the
      IEEE operations of [PrimFloat].  Python's [int] is [Z].
    - A trade is the JSON object the feed returns.  Each key the code reads
      becomes an optional field: [None] is an absent key, [Some v] a key
      holding a value of the JSON type the feed documents (an integer
      timestamp, numeric [price] and [size], strings elsewhere).
    - An exception is a value: a computation that may raise returns a
      [result].  [KeyboardInterrupt] and other [BaseException]s are outside
      the model.
    - [print] has no effect on the values computed and is left out; where the
      source only prints and returns, the model returns an [outcome] naming
      the branch taken.
    - The feed, the clock and the order gateway are inputs of the model. *)

From Stdlib Require Import ZArith List String Bool Lia Sorted.
From Stdlib Require Import Floats.PrimFloat Floats.SpecFloat Floats.FloatOps
  Floats.FloatAxioms.
Import ListNotations.

Set Warnings "-inexact-float".
Local Open Scope Z_scope.

(** ** Exceptions and fallible computations *)

Inductive exn : Type :=
| KeyError (key : string)
| ZeroDivisionError
| OverflowError.

Inductive result (A : Type) : Type :=
| Ok (a : A)
| Raise (e : exn).

Arguments Ok {A} a.
Arguments Raise {A} e.

Definition bind {A B : Type} (c : result A) (k : A -> result B) : result B :=
  match c with
  | Ok a => k a
  | Raise e => Raise e
  end.

Notation "x <- c ;; k" := (bind c (fun x => k))
  (at level 61, c at next level, right associativity).
Notation "' p <- c ;; k" := (bind c (fun x => let p := x in k))
  (at level 61, p pattern, c at next level, right associativity).

(** ** Python dictionaries read by fixed keys *)

(** [d.get(key, default)] *)
Definition get {A : Type} (field : option A) (default : A) : A :=
  match field with
  | Some v => v
  | None => default
  end.

(** [d[key]] *)
Definition getitem {A : Type} (key : string) (field : option A) : result A :=
  match field with
  | Some v => Ok v
  | None => Raise (KeyError key)
  end.

(** ** Python numbers *)

(** A JSON number is decoded as an [int] when it is an integer literal and as
    a [float] otherwise. *)
Inductive num : Type :=
| NInt (z : Z)
| NFloat (f : float).

Module Py.

(** [float(z)] for an [int]: the nearest binary64 value, ties to even;
    [OverflowError] when that value is not finite. *)
Definition float_of_int (z : Z) : result float :=
  let f := SF2Prim (binary_normalize prec emax z 0 false) in
  if is_infinity f then Raise OverflowError else Ok f.

(** [float(v)] *)
Definition float (v : num) : result PrimFloat.float :=
  match v with
  | NInt z => float_of_int z
  | NFloat f => Ok f
  end.

(** [min(a, b)]: the first argument unless the second is smaller. *)
Definition min (a b : PrimFloat.float) : PrimFloat.float :=
  if PrimFloat.ltb b a then b else a.

(** [max(a, b)]: the first argument unless the second is greater. *)
Definition max (a b : PrimFloat.float) : PrimFloat.float :=
  if PrimFloat.ltb a b then b else a.

(** [a / b] on floats. *)
Definition truediv (a b : PrimFloat.float) : result PrimFloat.float :=
  if PrimFloat.eqb b PrimFloat.zero then Raise ZeroDivisionError
  else Ok (PrimFloat.div a b).

(** The integer nearest to [n / d], ties to the even one ([0 < d]). *)
Definition round_half_even (n d : Z) : Z :=
  let q := n / d in
  match 2 * (n mod d) ?= d with
  | Lt => q
  | Eq => if Z.even q then q else q + 1
  | Gt => q + 1
  end.

(** [round(x, 4)] on a float: the exact value of [x] is rounded to four
    decimals, ties to even, and the decimal obtained is converted back to
    the nearest float.  Zeros, infinities, NaN and integral values are
    returned unchanged. *)
Definition round4 (x : PrimFloat.float) : PrimFloat.float :=
  match Prim2SF x with
  | S754_finite s m e =>
      if 0 <=? e then x
      else
        let n := round_half_even (Zpos m * 10000) (2 ^ (- e)) in
        let scaled :=
          match n with
          | Zpos p => S754_finite s p 0
          | _ => S754_zero s
          end in
        SF2Prim (SFdiv prec emax scaled (S754_finite false 10000 0))
  | _ => x
  end.

(** [needle in haystack] on strings. *)
Definition contains (needle haystack : string) : bool :=
  match String.index 0 needle haystack with
  | Some _ => true
  | None => false
  end.

(** Truth value of a string. *)
Definition truthy (s : string) : bool :=
  negb (String.eqb s EmptyString).

End Py.

(** ** Configuration: [src/config.py] *)

(** The integer constants of [config.py] are only ever combined with floats;
    they are held here as the floats of the same value. *)
Record Config : Type := {
  POLLING_INTERVAL_SECONDS : Z;
  ALLOCATION_PERCENT : float;
  MAX_TRADE_USDC : float;
  MIN_TRADE_USDC : float;
  SLIPPAGE_TOLERANCE_PERCENT : float;
  MIN_TRADE_SIZE : float
}.

Definition config : Config := {|
  POLLING_INTERVAL_SECONDS := 5;
  ALLOCATION_PERCENT := 0.15%float;
  MAX_TRADE_USDC := 4%float;
  MIN_TRADE_USDC := 0%float;
  SLIPPAGE_TOLERANCE_PERCENT := 0%float;
  MIN_TRADE_SIZE := 5%float
|}.

(** ** Trade records of the feed *)

Module Trade.

Record t : Type := {
  timestamp : option Z;
  side : option string;
  price : option num;
  size : option num;
  asset : option string;
  conditionId : option string;
  slug : option string;
  outcome : option string;
  title : option string
}.

End Trade.

(** ** The trade watcher: [src/data_listener.py] *)

Module TradeListener.

Record t : Type := {
  target_address : string;
  last_trade_timestamp : Z
}.

(** [__init__]: [now] is [int(time.time())]. *)
Definition init (target_address : string) (now : Z) : t :=
  {| target_address := target_address; last_trade_timestamp := now |}.

(** What [requests.get], [raise_for_status] and [response.json] produce:
    the decoded trades, or a [RequestException] (connection error, timeout,
    bad status). *)
Inductive response : Type :=
| Json (trades : list Trade.t)
| RequestException.

(** [trade.get("timestamp", 0)] *)
Definition trade_ts (trade : Trade.t) : Z :=
  get (Trade.timestamp trade) 0.

(** The [for trade in trades] loop of [_fetch_new_trades]: [new_trades] is
    the list built so far. *)
Fixpoint scan (mark : Z) (trades new_trades : list Trade.t) : list Trade.t :=
  match trades with
  | [] => new_trades
  | trade :: rest =>
      if mark <? trade_ts trade
      then scan mark rest (new_trades ++ [trade])
      else new_trades
  end.

Definition _fetch_new_trades (self : t) (r : response) : list Trade.t :=
  match r with
  | Json trades => rev (scan (last_trade_timestamp self) trades [])
  | RequestException => []
  end.

Section PollingLoop.

(** The callback acts on a state of its own, and may raise. *)
Variable C : Type.
Variable copy_trader_callback : C -> Trade.t -> result C.

(** [for trade in new_trades: copy_trader_callback(trade)] *)
Fixpoint for_each (c : C) (new_trades : list Trade.t) : result C :=
  match new_trades with
  | [] => Ok c
  | trade :: rest =>
      c' <- copy_trader_callback c trade ;;
      for_each c' rest
  end.

(** One turn of the [while True] loop, up to the sleep. *)
Definition poll_cycle (self : t) (c : C) (r : response) : result (t * C) :=
  let new_trades := _fetch_new_trades self r in
  match new_trades with
  | [] => Ok (self, c)
  | first :: _ =>
      c' <- for_each c new_trades ;;
      let newest := List.last new_trades first in
      Ok ({| target_address := target_address self;
             last_trade_timestamp :=
               get (Trade.timestamp newest) (last_trade_timestamp self) |},
          c')
  end.

(** The loop, run for as many turns as there are feed responses; an
    exception that leaves a turn ends the loop. *)
Fixpoint run_polling_loop (self : t) (c : C) (feed : list response)
  : result (t * C) :=
  match feed with
  | [] => Ok (self, c)
  | r :: rest =>
      '(self', c') <- poll_cycle self c r ;;
      run_polling_loop self' c' rest
  end.

End PollingLoop.

End TradeListener.

(** ** The order gateway: [py_clob_client] *)

(** [py_clob_client.order_builder.constants] *)
Definition BUY : string := "BUY"%string.
Definition SELL : string := "SELL"%string.

Module OrderArgs.

Record t : Type := {
  token_id : string;
  price : float;
  size : float;
  side : string
}.

End OrderArgs.

(** What the body of the [try] statement of [execute_copy_trade] comes to:
    [create_order] and [post_order] answered and the answer's ["success"]
    entry was true or not, or some [Exception] was raised on the way. *)
Inductive reply : Type :=
| Response (success : bool)
| Raised.

(** ** The copy engine: [src/copy_trader.py] *)

Module CopyTrader.

(** Why [execute_copy_trade] returned without an order. *)
Inductive skip : Type :=
| Filtered   (** [_apply_filters] returned [False] *)
| TooSmall.  (** amount too small after allocation *)

Inductive decision : Type :=
| Skip (why : skip)
| Order (order_args : OrderArgs.t).

Inductive outcome : Type :=
| Skipped (why : skip)
| Submitted (order_args : OrderArgs.t) (r : reply).

Section WithConfig.

Variable cfg : Config.

Definition _apply_filters (original_trade : Trade.t) : result bool :=
  match Trade.size original_trade with
  | None => Ok false
  | Some sz =>
      fill <- Py.float sz ;;
      if PrimFloat.eqb fill 0 then Ok false
      else
        size <- Py.float (get (Trade.size original_trade) (NInt 0)) ;;
        price <- Py.float (get (Trade.price original_trade) (NInt 0)) ;;
        let trade_amount_usdc := PrimFloat.mul size price in
        if PrimFloat.ltb trade_amount_usdc (MIN_TRADE_USDC cfg) then Ok false
        else
          let slug := get (Trade.slug original_trade) EmptyString in
          if Py.truthy slug && Py.contains "4h" slug then Ok false
          else Ok true
  end.

(** [execute_copy_trade] from its first line to the construction of
    [order_args], that is, all of it before the [try] statement. *)
Definition build_order (original_trade : Trade.t) : result decision :=
  pass <- _apply_filters original_trade ;;
  if negb pass then Ok (Skip Filtered)
  else
    price <- getitem "price" (Trade.price original_trade) ;;
    original_price <- Py.float price ;;
    original_side <- getitem "side" (Trade.side original_trade) ;;
    original_size <- Py.float (get (Trade.size original_trade) (NInt 0)) ;;
    let original_amount_usdc := PrimFloat.mul original_price original_size in
    token_id <- getitem "asset" (Trade.asset original_trade) ;;
    let original_outcome := get (Trade.outcome original_trade) "N/A"%string in
    condition_id <- getitem "conditionId" (Trade.conditionId original_trade) ;;
    let market_title := get (Trade.title original_trade) condition_id in
    let copied_amount_usdc :=
      PrimFloat.mul original_amount_usdc (ALLOCATION_PERCENT cfg) in
    let copied_amount_usdc := Py.min copied_amount_usdc (MAX_TRADE_USDC cfg) in
    if PrimFloat.ltb copied_amount_usdc (MIN_TRADE_USDC cfg) then Ok (Skip TooSmall)
    else
      copied_size_tokens <- Py.truediv copied_amount_usdc original_price ;;
      let copied_size_tokens := Py.max copied_size_tokens (MIN_TRADE_SIZE cfg) in
      let copy_side := if String.eqb original_side "BUY" then BUY else SELL in
      let order_price :=
        if String.eqb copy_side BUY then
          let max_buy_price :=
            PrimFloat.mul original_price
              (PrimFloat.add 1 (SLIPPAGE_TOLERANCE_PERCENT cfg)) in
          Py.round4 max_buy_price
        else
          let min_sell_price :=
            PrimFloat.mul original_price
              (PrimFloat.sub 1 (SLIPPAGE_TOLERANCE_PERCENT cfg)) in
          Py.round4 min_sell_price in
      Ok (Order {| OrderArgs.token_id := token_id;
                   OrderArgs.price := order_price;
                   OrderArgs.size := copied_size_tokens;
                   OrderArgs.side := copy_side |})
  .

(** The gateway: a client state and what submitting an order does to it. *)
Variable Client : Type.
Variable submit : Client -> OrderArgs.t -> Client * reply.

(** The [try] statement catches every [Exception]: whatever the gateway
    does, the function returns. *)
Definition execute_copy_trade (client : Client) (original_trade : Trade.t)
  : result (Client * outcome) :=
  d <- build_order original_trade ;;
  match d with
  | Skip why => Ok (client, Skipped why)
  | Order order_args =>
      let (client', r) := submit client order_args in
      Ok (client', Submitted order_args r)
  end.

(** [execute_copy_trade] as the callback of the polling loop; the
    outcomes are kept, oldest first. *)
Definition callback (c : Client * list outcome) (trade : Trade.t)
  : result (Client * list outcome) :=
  '(client', o) <- execute_copy_trade (fst c) trade ;;
  Ok (client', snd c ++ [o]).

End WithConfig.

End CopyTrader.

(** [main], once the configuration is known to be complete: the listener is
    created at time [now] and the loop runs on [feed]. *)
Definition main {Client : Type} (submit : Client -> OrderArgs.t -> Client * reply)
    (client : Client) (target_address : string) (now : Z)
    (feed : list TradeListener.response)
  : result (TradeListener.t * (Client * list CopyTrader.outcome)) :=
  TradeListener.run_polling_loop _
    (CopyTrader.callback config Client submit)
    (TradeListener.init target_address now) (client, []) feed.

(** ** Vocabulary of the specification *)

(** The feed lists trades newest first: timestamps never increase. *)
Definition newest_first (trades : list Trade.t) : Prop :=
  StronglySorted
    (fun a b => TradeListener.trade_ts b <= TradeListener.trade_ts a) trades.

(** Causal order: timestamps never decrease. *)
Definition oldest_first (trades : list Trade.t) : Prop :=
  StronglySorted
    (fun a b => TradeListener.trade_ts a <= TradeListener.trade_ts b) trades.

(** A trade is new when its timestamp strictly exceeds the high-water mark. *)
Definition is_new (mark : Z) (trade : Trade.t) : bool :=
  mark <? TradeListener.trade_ts trade.

(** A trade record of the feed with the given timestamp, side, price and
    size, the keys [asset] and [conditionId] present and every optional key
    absent. *)
Definition trade_record (ts : option Z) (side : option string)
    (price size : option num) : Trade.t :=
  {| Trade.timestamp := ts;
     Trade.side := side;
     Trade.price := price;
     Trade.size := size;
     Trade.asset := Some "token"%string;
     Trade.conditionId := Some "market"%string;
     Trade.slug := None;
     Trade.outcome := None;
     Trade.title := None |}.

(** ** The sizing rule of the specification, and the inputs of the examples *)

(** The feed of the ordering example: timestamps 5, 4, 3, 2, 1. *)
Definition feed_5_to_1 : list Trade.t :=
  map (fun ts => trade_record (Some ts) (Some BUY) (Some (NFloat 0.5)) (Some (NInt 10)))
      [5; 4; 3; 2; 1].

(** A callback that copies nothing and never raises. *)
Definition no_callback (c : unit) (_ : Trade.t) : result unit := Ok c.

(** A feed whose newest record carries no timestamp. *)
Definition feed_without_timestamp : list Trade.t :=
  trade_record None (Some BUY) (Some (NFloat 0.5)) (Some (NInt 10)) :: feed_5_to_1.

(** Sizing as the specification words it (Copy Engine, sizing steps 1 and 2):
    the amount copied is the traded amount, price times size, times the
    allocation fraction, clamped to the maximum. *)
Definition spec_copied_amount (cfg : Config) (price size : float) : float :=
  Py.min (PrimFloat.mul (PrimFloat.mul price size) (ALLOCATION_PERCENT cfg))
         (MAX_TRADE_USDC cfg).

(** Sizing steps 3 to 5: below the minimum trade value the trade is skipped
    ([None]); otherwise the share count is the clamped amount over the
    original price, raised to the minimum share floor. *)
Definition spec_copied_shares (cfg : Config) (price size : float) : option float :=
  let copied_amount := spec_copied_amount cfg price size in
  if PrimFloat.ltb copied_amount (MIN_TRADE_USDC cfg) then None
  else Some (Py.max (PrimFloat.div copied_amount price) (MIN_TRADE_SIZE cfg)).

(** The limit price of the specification. *)
Definition spec_limit_price (cfg : Config) (side : string) (price : float) : float :=
  if String.eqb side BUY
  then Py.round4 (PrimFloat.mul price (PrimFloat.add 1 (SLIPPAGE_TOLERANCE_PERCENT cfg)))
  else Py.round4 (PrimFloat.mul price (PrimFloat.sub 1 (SLIPPAGE_TOLERANCE_PERCENT cfg))).

(** The trade of the sizing example: 100 shares at 0.20. *)
Definition trade_100_at_020 : Trade.t :=
  trade_record (Some 5) (Some BUY) (Some (NFloat 0.2)) (Some (NInt 100)).

(** A small trade at a high price: one share at 0.90. *)
Definition trade_1_at_090 : Trade.t :=
  trade_record (Some 5) (Some BUY) (Some (NFloat 0.9)) (Some (NInt 1)).

(** A trade sold: 100 shares at 0.20. *)
Definition trade_sold_100_at_020 : Trade.t :=
  trade_record (Some 5) (Some SELL) (Some (NFloat 0.2)) (Some (NInt 100)).

(** A gateway that accepts every order. *)
Definition accepting (client : unit) (_ : OrderArgs.t) : unit * reply :=
  (client, Response true).

(** A gateway that raises on every order. *)
Definition raising (client : unit) (_ : OrderArgs.t) : unit * reply :=
  (client, Raised).

(** A record with a price of zero. *)
Definition trade_at_zero_price : Trade.t :=
  trade_record (Some 5) (Some BUY) (Some (NInt 0)) (Some (NInt 10)).

(** A well-formed record, one second later: 10 shares at 0.50. *)
Definition trade_10_at_050 : Trade.t :=
  trade_record (Some 6) (Some BUY) (Some (NFloat 0.5)) (Some (NInt 10)).

(** A record without the key [side]. *)
Definition trade_without_side : Trade.t :=
  trade_record (Some 5) None (Some (NFloat 0.5)) (Some (NInt 10)).

(** A record without the key [price]. *)
Definition trade_without_price : Trade.t :=
  trade_record (Some 5) (Some BUY) None (Some (NInt 10)).

(** ** Vocabulary of the further properties *)

(** A callback that keeps the trades it is handed, in the order it is handed
    them, and never raises. *)
Definition recorder (log : list Trade.t) (trade : Trade.t)
  : result (list Trade.t) :=
  Ok (log ++ [trade]).

(** Every decoded response of a run lists its trades newest first: the
    timestamp of a later record is related by [R] to that of an earlier one
    ([R] is [<=], or [<] when no two records share a timestamp). *)
Definition feed_newest_first (R : Z -> Z -> Prop)
    (feed : list TradeListener.response) : Prop :=
  Forall (fun r =>
            match r with
            | TradeListener.Json trades =>
                StronglySorted
                  (fun a b => R (TradeListener.trade_ts b) (TradeListener.trade_ts a))
                  trades
            | TradeListener.RequestException => True
            end) feed.

(** A feed of two polls in which the second response repeats the first and
    adds one trade at timestamp 6. *)
Definition feed_two_polls : list TradeListener.response :=
  [TradeListener.Json feed_5_to_1;
   TradeListener.RequestException;
   TradeListener.Json (trade_10_at_050 :: feed_5_to_1)].

(** An order is within the limits the copy engine sets itself: its side is one
    of the two constants of the gateway and its size is not below the share
    floor. *)
Definition order_within_limits (cfg : Config) (order : OrderArgs.t) : Prop :=
  (OrderArgs.side order = BUY \/ OrderArgs.side order = SELL)
  /\ PrimFloat.ltb (OrderArgs.size order) (MIN_TRADE_SIZE cfg) = false.

Definition outcome_within_limits (cfg : Config) (o : CopyTrader.outcome) : Prop :=
  match o with
  | CopyTrader.Submitted order _ => order_within_limits cfg order
  | CopyTrader.Skipped _ => True
  end.

(** A gateway that keeps the orders it receives, in the order it receives
    them; its answer may depend on the orders received so far. *)
Definition journal (answer : list OrderArgs.t -> OrderArgs.t -> reply)
    (received : list OrderArgs.t) (order : OrderArgs.t)
  : list OrderArgs.t * reply :=
  (received ++ [order], answer received order).

(** The orders of the outcomes that are submissions, in the order of the
    outcomes. *)
Definition submitted_orders (log : list CopyTrader.outcome) : list OrderArgs.t :=
  flat_map (fun o =>
              match o with
              | CopyTrader.Submitted order _ => [order]
              | CopyTrader.Skipped _ => []
              end) log.

(** The constants of [config.py] with a minimum trade value of 1. *)
Definition config_min_1 : Config := {|
  POLLING_INTERVAL_SECONDS := POLLING_INTERVAL_SECONDS config;
  ALLOCATION_PERCENT := ALLOCATION_PERCENT config;
  MAX_TRADE_USDC := MAX_TRADE_USDC config;
  MIN_TRADE_USDC := 1%float;
  SLIPPAGE_TOLERANCE_PERCENT := SLIPPAGE_TOLERANCE_PERCENT config;
  MIN_TRADE_SIZE := MIN_TRADE_SIZE config
|}.

(** A trade in a market whose slug carries the marker [4h]. *)
Definition trade_in_4h_market : Trade.t :=
  {| Trade.timestamp := Some 5;
     Trade.side := Some BUY;
     Trade.price := Some (NFloat 0.5);
     Trade.size := Some (NInt 10);
     Trade.asset := Some "token"%string;
     Trade.conditionId := Some "market"%string;
     Trade.slug := Some "btc-updown-4h-1700000000"%string;
     Trade.outcome := Some "Up"%string;
     Trade.title := Some "Bitcoin up or down"%string |}.

(** A record with a title and without the key [conditionId]. *)
Definition trade_without_condition_id : Trade.t :=
  {| Trade.timestamp := Some 5;
     Trade.side := Some BUY;
     Trade.price := Some (NFloat 0.5);
     Trade.size := Some (NInt 10);
     Trade.asset := Some "token"%string;
     Trade.conditionId := None;
     Trade.slug := None;
     Trade.outcome := None;
     Trade.title := Some "Bitcoin up or down"%string |}.

(** A record whose side is spelled in lower case. *)
Definition trade_bought_in_lower_case : Trade.t :=
  trade_record (Some 5) (Some "buy"%string) (Some (NFloat 0.2)) (Some (NInt 100)).

(** A record of size zero. *)
Definition trade_of_size_zero : Trade.t :=
  trade_record (Some 5) (Some BUY) (Some (NFloat 0.5)) (Some (NInt 0)).



(** What the feed answers to [requests.get]: nothing (connection error,
    timeout), or a status code and a body, here a body that [response.json()]
    decodes to a list of trades. *)
Inductive http_answer : Type :=
| NoAnswer
| Answer (status_code : Z) (body : list Trade.t).

(** [response.raise_for_status()] raises [HTTPError], a [RequestException],
    for the status codes 4xx and 5xx, and for no other. *)
Definition raise_for_status (status_code : Z) : bool :=
  (400 <=? status_code) && (status_code <? 600).

(** The first three lines of the [try] block of [_fetch_new_trades]:
    [requests.get], [raise_for_status], [response.json]. *)
Definition request (a : http_answer) : TradeListener.response :=
  match a with
  | NoAnswer => TradeListener.RequestException
  | Answer status_code body =>
      if raise_for_status status_code then TradeListener.RequestException
      else TradeListener.Json body
  end.

(** The orders the copy engine builds from a list of trades, in the order of
    the trades; a trade that is skipped gives none. *)
Definition built_orders (cfg : Config) (trades : list Trade.t)
  : list OrderArgs.t :=
  flat_map (fun trade =>
              match CopyTrader.build_order cfg trade with
              | Ok (CopyTrader.Order order) => [order]
              | _ => []
              end) trades.

(** * The trade watcher *)

Section ScanFacts.

Import TradeListener.

Variable mark : Z.

Lemma scan_acc (trades acc : list Trade.t) :
  scan mark trades acc = acc ++ scan mark trades [].
Proof.
  revert acc.
  induction trades as [|trade rest IH]; intros acc; simpl.
  - now rewrite app_nil_r.
  - destruct (mark <? trade_ts trade).
    + rewrite (IH (acc ++ [trade])), (IH [trade]).
      now rewrite <- app_assoc.
    + now rewrite app_nil_r.
Qed.

Lemma scan_cons (trade : Trade.t) (rest : list Trade.t) :
  scan mark (trade :: rest) [] =
    if is_new mark trade then trade :: scan mark rest [] else [].
Proof.
  unfold is_new; simpl.
  destruct (mark <? trade_ts trade); [|reflexivity].
  now rewrite scan_acc.
Qed.

(** The scan stops at the first trade that is not new: what follows that
    trade has no influence on the result. *)
Lemma scan_stops (head : list Trade.t) (old : Trade.t) (tail : list Trade.t) :
  Forall (fun trade => mark < trade_ts trade) head ->
  trade_ts old <= mark ->
  scan mark (head ++ old :: tail) [] = head.
Proof.
  intros Hhead Hold.
  induction Hhead as [|trade head Hnew _ IH].
  - simpl. destruct (Z.ltb_spec mark (trade_ts old)); [lia | reflexivity].
  - change ((trade :: head) ++ old :: tail) with (trade :: (head ++ old :: tail)).
    rewrite scan_cons. unfold is_new.
    destruct (Z.ltb_spec mark (trade_ts trade)); [|lia].
    now rewrite IH.
Qed.

Lemma scan_all_new (trades : list Trade.t) :
  Forall (fun trade => mark < trade_ts trade) (scan mark trades []).
Proof.
  induction trades as [|trade rest IH].
  - constructor.
  - rewrite scan_cons. unfold is_new.
    destruct (Z.ltb_spec mark (trade_ts trade)); constructor; assumption.
Qed.

(** On a feed sorted newest first, stopping at the first old trade loses
    nothing: the scan is the filter. *)
Lemma scan_filter (trades : list Trade.t) :
  newest_first trades ->
  scan mark trades [] = filter (is_new mark) trades.
Proof.
  intros Hsorted.
  induction Hsorted as [|trade rest Hrest IH Hle].
  - reflexivity.
  - rewrite scan_cons. simpl.
    destruct (is_new mark trade) eqn:Hnew.
    + now rewrite IH.
    + clear IH Hrest. unfold is_new in Hnew. apply Z.ltb_ge in Hnew.
      induction Hle as [|x xs Hx _ IHxs]; simpl; [reflexivity|].
      unfold is_new at 1.
      destruct (Z.ltb_spec mark (trade_ts x)); [lia | exact IHxs].
Qed.

Lemma filter_newest_first (f : Trade.t -> bool) (trades : list Trade.t) :
  newest_first trades -> newest_first (filter f trades).
Proof.
  intros Hsorted.
  induction Hsorted as [|trade rest Hrest IH Hle]; simpl.
  - constructor.
  - destruct (f trade); [|exact IH].
    constructor; [exact IH|].
    apply Forall_forall. intros x Hx.
    apply filter_In in Hx.
    exact (proj1 (Forall_forall _ _) Hle x (proj1 Hx)).
Qed.

End ScanFacts.

Lemma rev_oldest_first (trades : list Trade.t) :
  newest_first trades -> oldest_first (rev trades).
Proof.
  intros Hsorted.
  induction Hsorted as [|trade rest Hrest IH Hle]; simpl.
  - constructor.
  - clear Hrest.
    assert (Hrev : Forall (fun x => TradeListener.trade_ts x
                                    <= TradeListener.trade_ts trade) (rev rest)).
    { apply Forall_forall. intros x Hx. apply in_rev in Hx.
      exact (proj1 (Forall_forall _ _) Hle x Hx). }
    clear Hle.
    induction IH as [|y ys Hys IHys Hy]; simpl.
    + repeat constructor.
    + inversion Hrev as [|? ? Hy_le Hys_le]; subst.
      constructor.
      * apply IHys. exact Hys_le.
      * apply Forall_app. split; [exact Hy|]. now constructor.
Qed.

(** The newest of the trades a poll returns is the first trade of the feed. *)
Lemma fetch_last (self : TradeListener.t) (trades : list Trade.t)
    (first : Trade.t) (rest : list Trade.t) :
  TradeListener._fetch_new_trades self (TradeListener.Json trades) = first :: rest ->
  exists newest others,
    trades = newest :: others
    /\ List.last (first :: rest) first = newest
    /\ TradeListener.last_trade_timestamp self < TradeListener.trade_ts newest.
Proof.
  unfold TradeListener._fetch_new_trades.
  destruct trades as [|newest others]; [discriminate|].
  rewrite scan_cons. unfold is_new.
  destruct (Z.ltb_spec (TradeListener.last_trade_timestamp self)
              (TradeListener.trade_ts newest)) as [Hnew|Hold]; [|discriminate].
  intros Hfetch. exists newest, others.
  split; [reflexivity|]. split; [|exact Hnew].
  rewrite <- Hfetch. simpl rev. apply last_last.
Qed.

(** A timestamp above a non-negative mark is one the record carries. *)
Lemma new_has_timestamp (mark : Z) (trade : Trade.t) :
  0 <= mark -> mark < TradeListener.trade_ts trade ->
  Trade.timestamp trade = Some (TradeListener.trade_ts trade).
Proof.
  unfold TradeListener.trade_ts.
  destruct (Trade.timestamp trade); simpl; intros; [reflexivity | lia].
Qed.

(** C1.  On a feed sorted newest first, [_fetch_new_trades] returns exactly
    the trades whose timestamp strictly exceeds the high-water mark, oldest
    first; the scan ends at the first trade that does not exceed the mark, so
    the trades after it play no part in the result.  For feed timestamps
    5, 4, 3, 2, 1 and mark 2 the trades returned have timestamps 3, 4, 5. *)
Theorem C1_fetch_returns_new_trades_oldest_first :
  forall (self : TradeListener.t) (trades : list Trade.t),
    newest_first trades ->
    let mark := TradeListener.last_trade_timestamp self in
    let new_trades :=
      TradeListener._fetch_new_trades self (TradeListener.Json trades) in
    new_trades = rev (filter (is_new mark) trades)
    /\ oldest_first new_trades
    /\ (forall head old tail tail',
          trades = head ++ old :: tail ->
          Forall (fun trade => mark < TradeListener.trade_ts trade) head ->
          TradeListener.trade_ts old <= mark ->
          new_trades = rev head
          /\ TradeListener._fetch_new_trades self
               (TradeListener.Json (head ++ old :: tail')) = new_trades)
    /\ (map Trade.timestamp trades = map Some [5; 4; 3; 2; 1] ->
        mark = 2 ->
        map Trade.timestamp new_trades = map Some [3; 4; 5]).
Proof.
  intros self trades Hsorted mark new_trades.
  assert (Hfilter : new_trades = rev (filter (is_new mark) trades)).
  { unfold new_trades, TradeListener._fetch_new_trades.
    now rewrite scan_filter. }
  split; [exact Hfilter|]. split; [|split].
  - rewrite Hfilter. apply rev_oldest_first, filter_newest_first, Hsorted.
  - intros head old tail tail' Htrades Hhead Hold.
    unfold new_trades, TradeListener._fetch_new_trades. fold mark.
    rewrite Htrades, !scan_stops by assumption. split; reflexivity.
  - intros Hts Hmark. rewrite Hfilter, Hmark. clear - Hts.
    do 6 (destruct trades as [|? trades]; try discriminate Hts).
    simpl in Hts. injection Hts as H5 H4 H3 H2 H1.
    unfold is_new, TradeListener.trade_ts; simpl.
    rewrite H5, H4, H3, H2, H1. simpl.
    now rewrite H5, H4, H3.
Qed.

Lemma C1_witness_feed_5_to_1 :
  newest_first feed_5_to_1
  /\ map TradeListener.trade_ts
       (TradeListener._fetch_new_trades (TradeListener.init "0xTarget" 2)
          (TradeListener.Json feed_5_to_1)) = [3; 4; 5].
Proof.
  assert (Hsorted : newest_first feed_5_to_1).
  { unfold newest_first, feed_5_to_1, TradeListener.trade_ts; simpl.
    repeat (constructor; simpl; try lia). }
  split; [exact Hsorted|].
  destruct (C1_fetch_returns_new_trades_oldest_first
              (TradeListener.init "0xTarget" 2) feed_5_to_1 Hsorted)
    as (Hexact & _).
  rewrite Hexact. reflexivity.
Defined.

(** A [RequestException] anywhere in a run changes nothing of what the run
    does: the poll returns the empty list and the turn leaves the state as it
    was. *)
Lemma request_exception_changes_nothing
    (C : Type) (callback : C -> Trade.t -> result C)
    (self : TradeListener.t) (c : C)
    (before after : list TradeListener.response) :
  TradeListener._fetch_new_trades self TradeListener.RequestException = []
  /\ TradeListener.poll_cycle C callback self c TradeListener.RequestException
     = Ok (self, c)
  /\ TradeListener.run_polling_loop C callback self c
       (before ++ TradeListener.RequestException :: after)
     = TradeListener.run_polling_loop C callback self c (before ++ after).
Proof.
  split; [reflexivity|]. split; [reflexivity|].
  revert self c.
  induction before as [|r before IH]; intros self c.
  - reflexivity.
  - simpl.
    destruct (TradeListener.poll_cycle C callback self c r) as [[self1 c1]|e];
      simpl; [apply IH | reflexivity].
Qed.

(** C4, as stated, fails: a status that is not 2xx is not always a failed
    fetch.  [raise_for_status] raises for 4xx and 5xx only, so an answer with
    status 300 and a list of trades as its body is read as a success: with
    mark 2 the poll returns the trades at 3, 4 and 5 and the turn moves the
    mark to 5. *)
Lemma C4_counterexample_status_300 :
  map TradeListener.trade_ts
    (TradeListener._fetch_new_trades (TradeListener.init "0xTarget" 2)
       (request (Answer 300 feed_5_to_1))) = [3; 4; 5]
  /\ TradeListener.poll_cycle unit no_callback (TradeListener.init "0xTarget" 2) tt
       (request (Answer 300 feed_5_to_1))
     = Ok (TradeListener.init "0xTarget" 5, tt).
Proof.
  split; reflexivity.
Qed.

(** C4, amended.  When the feed fetch fails, by a transport error or by a
    status 4xx or 5xx, the poll returns the empty list and nothing is raised;
    the turn of the loop leaves the high-water mark, and the rest of the
    state, as it was, and the loop goes on, so that a failed fetch anywhere
    in a run changes nothing of what the run does.  An answer with any other
    status is read as a success: the poll returns the new trades of its
    body. *)
Theorem C4_failed_fetch_yields_no_trades :
  (forall (C : Type) (callback : C -> Trade.t -> result C)
          (self : TradeListener.t) (c : C)
          (before after : list TradeListener.response) (a : http_answer),
      a = NoAnswer
      \/ (exists status_code body,
             a = Answer status_code body /\ 400 <= status_code < 600) ->
      TradeListener._fetch_new_trades self (request a) = []
      /\ TradeListener.poll_cycle C callback self c (request a) = Ok (self, c)
      /\ TradeListener.run_polling_loop C callback self c
           (before ++ request a :: after)
         = TradeListener.run_polling_loop C callback self c (before ++ after))
  /\ (forall (self : TradeListener.t) (status_code : Z) (body : list Trade.t),
        status_code < 400 \/ 600 <= status_code ->
        TradeListener._fetch_new_trades self (request (Answer status_code body))
        = TradeListener._fetch_new_trades self (TradeListener.Json body)).
Proof.
  split.
  - intros C callback self c before after a Hfailed.
    assert (Hraised : request a = TradeListener.RequestException).
    { destruct Hfailed as [-> | (status_code & body & -> & Hstatus)];
        [reflexivity|].
      unfold request, raise_for_status.
      destruct (Z.leb_spec 400 status_code); [|lia].
      destruct (Z.ltb_spec status_code 600); [reflexivity | lia]. }
    rewrite Hraised. apply request_exception_changes_nothing.
  - intros self status_code body Hstatus.
    unfold request, raise_for_status.
    destruct (Z.leb_spec 400 status_code); [|reflexivity].
    destruct (Z.ltb_spec status_code 600); [lia | reflexivity].
Qed.

Lemma C4_witness_status_503 :
  TradeListener._fetch_new_trades (TradeListener.init "0xTarget" 2)
    (request (Answer 503 feed_5_to_1)) = []
  /\ TradeListener.poll_cycle unit no_callback (TradeListener.init "0xTarget" 2) tt
       (request (Answer 503 feed_5_to_1))
     = Ok (TradeListener.init "0xTarget" 2, tt).
Proof.
  destruct (proj1 C4_failed_fetch_yields_no_trades unit no_callback
              (TradeListener.init "0xTarget" 2) tt [] [] (Answer 503 feed_5_to_1))
    as (Hempty & Hcycle & _).
  - right. exists 503, feed_5_to_1. split; [reflexivity | lia].
  - split; assumption.
Defined.

(** One turn of the loop: what becomes of the high-water mark. *)
Lemma poll_cycle_mark (C : Type) (callback : C -> Trade.t -> result C)
    (self self' : TradeListener.t) (c c' : C) (r : TradeListener.response) :
  TradeListener.poll_cycle C callback self c r = Ok (self', c') ->
  match TradeListener._fetch_new_trades self r with
  | [] => self' = self
  | first :: rest =>
      TradeListener.last_trade_timestamp self' =
        get (Trade.timestamp (List.last (first :: rest) first))
            (TradeListener.last_trade_timestamp self)
  end.
Proof.
  unfold TradeListener.poll_cycle.
  destruct (TradeListener._fetch_new_trades self r) as [|first rest].
  - intros H. now inversion H.
  - destruct (TradeListener.for_each C callback c (first :: rest)); simpl;
      intros H; inversion H; reflexivity.
Qed.

Lemma poll_cycle_monotone (C : Type) (callback : C -> Trade.t -> result C)
    (self self' : TradeListener.t) (c c' : C) (r : TradeListener.response) :
  TradeListener.poll_cycle C callback self c r = Ok (self', c') ->
  TradeListener.last_trade_timestamp self
  <= TradeListener.last_trade_timestamp self'.
Proof.
  intros Hcycle. apply poll_cycle_mark in Hcycle.
  destruct (TradeListener._fetch_new_trades self r) as [|first rest] eqn:Hfetch.
  - subst. lia.
  - destruct r as [trades|]; [|discriminate].
    destruct (fetch_last _ _ _ _ Hfetch) as (newest & others & _ & Hlast & Hnew).
    rewrite Hlast in Hcycle. rewrite Hcycle.
    unfold TradeListener.trade_ts in Hnew.
    destruct (Trade.timestamp newest); simpl in *; lia.
Qed.

Lemma run_polling_loop_monotone (C : Type) (callback : C -> Trade.t -> result C)
    (feed : list TradeListener.response) :
  forall (self self' : TradeListener.t) (c c' : C),
    TradeListener.run_polling_loop C callback self c feed = Ok (self', c') ->
    TradeListener.last_trade_timestamp self
    <= TradeListener.last_trade_timestamp self'.
Proof.
  induction feed as [|r rest IH]; intros self self' c c'; simpl.
  - intros H. inversion H. lia.
  - destruct (TradeListener.poll_cycle C callback self c r) as [[self1 c1]|e] eqn:Hcycle;
      simpl; [|discriminate].
    intros Hrest. apply poll_cycle_monotone in Hcycle. apply IH in Hrest. lia.
Qed.

(** C5.  The high-water mark never decreases.  [init] sets it to the clock
    value; a turn of the loop that completes leaves it where it was when no
    trade was returned (empty feed, nothing new, failed fetch) and otherwise
    sets it from the last trade returned, the first of the feed; with a
    non-negative mark, as after any start at a non-negative clock value, that
    is the trade's own timestamp and it strictly exceeds the previous mark.
    On a feed sorted newest first no returned trade is more recent.  Over any
    run of the loop the final mark is at least the initial one. *)
Theorem C5_high_water_mark_never_decreases :
  forall (C : Type) (callback : C -> Trade.t -> result C),
    (forall target now,
        TradeListener.last_trade_timestamp (TradeListener.init target now) = now)
    /\ (forall feed self self' c c',
          TradeListener.run_polling_loop C callback self c feed = Ok (self', c') ->
          TradeListener.last_trade_timestamp self
          <= TradeListener.last_trade_timestamp self')
    /\ (forall self self' c c' r,
          TradeListener.poll_cycle C callback self c r = Ok (self', c') ->
          TradeListener.last_trade_timestamp self
          <= TradeListener.last_trade_timestamp self'
          /\ match TradeListener._fetch_new_trades self r with
             | [] => self' = self
             | first :: rest =>
                 let newest := List.last (first :: rest) first in
                 TradeListener.last_trade_timestamp self' =
                   get (Trade.timestamp newest)
                       (TradeListener.last_trade_timestamp self)
                 /\ (0 <= TradeListener.last_trade_timestamp self ->
                     TradeListener.last_trade_timestamp self'
                       = TradeListener.trade_ts newest
                     /\ TradeListener.last_trade_timestamp self
                        < TradeListener.last_trade_timestamp self')
                 /\ (forall trades,
                       r = TradeListener.Json trades -> newest_first trades ->
                       Forall (fun trade => TradeListener.trade_ts trade
                                            <= TradeListener.trade_ts newest)
                              (first :: rest))
             end).
Proof.
  intros C callback. split; [reflexivity|]. split.
  - intros feed self self' c c'. apply run_polling_loop_monotone.
  - intros self self' c c' r Hcycle.
    split; [exact (poll_cycle_monotone _ _ _ _ _ _ _ Hcycle)|].
    apply poll_cycle_mark in Hcycle.
    destruct (TradeListener._fetch_new_trades self r) as [|first rest] eqn:Hfetch;
      [exact Hcycle|].
    cbv zeta. split; [exact Hcycle|].
    destruct r as [trades|]; [|discriminate].
    destruct (fetch_last _ _ _ _ Hfetch) as (newest & others & Htrades & Hlast & Hnew).
    rewrite Hlast in *. split.
    + intros Hmark.
      rewrite (new_has_timestamp _ _ Hmark Hnew) in Hcycle. simpl in Hcycle.
      lia.
    + intros trades' Hr Hsorted. injection Hr as <-.
      rewrite <- Hfetch. apply Forall_forall. intros x Hx.
      unfold TradeListener._fetch_new_trades in Hx.
      rewrite scan_filter in Hx by exact Hsorted.
      apply in_rev, filter_In, proj1 in Hx.
      subst trades. inversion Hsorted as [|? ? _ Hle]; subst.
      destruct Hx as [<-|Hx]; [lia|].
      exact (proj1 (Forall_forall _ _) Hle x Hx).
Qed.

Lemma C5_witness_feed_5_to_1 :
  TradeListener.poll_cycle unit no_callback (TradeListener.init "0xTarget" 2) tt
    (TradeListener.Json feed_5_to_1)
  = Ok (TradeListener.init "0xTarget" 5, tt)
  /\ 2 <= 5 /\ 2 < 5.
Proof.
  split; [reflexivity|].
  pose proof (proj2 (proj2 (C5_high_water_mark_never_decreases unit no_callback))
                (TradeListener.init "0xTarget" 2) (TradeListener.init "0xTarget" 5)
                tt tt (TradeListener.Json feed_5_to_1) eq_refl) as [Hmono Hupdate].
  simpl in Hmono, Hupdate.
  destruct Hupdate as (_ & Hstrict & _).
  split; [exact Hmono|].
  apply Hstrict. lia.
Defined.

(** C6.  After a turn of the loop that completed, mark update included, a
    poll of the same feed returns nothing, and the turn it belongs to changes
    nothing.  The mark is non-negative, as after any start at a non-negative
    clock value. *)
Theorem C6_repoll_of_unchanged_feed_is_empty :
  forall (C : Type) (callback : C -> Trade.t -> result C)
         (self self' : TradeListener.t) (c c' : C) (r : TradeListener.response),
    0 <= TradeListener.last_trade_timestamp self ->
    TradeListener.poll_cycle C callback self c r = Ok (self', c') ->
    TradeListener._fetch_new_trades self' r = []
    /\ TradeListener.poll_cycle C callback self' c' r = Ok (self', c').
Proof.
  intros C callback self self' c c' r Hmark Hcycle.
  assert (Hempty : TradeListener._fetch_new_trades self' r = []).
  { apply poll_cycle_mark in Hcycle.
    destruct (TradeListener._fetch_new_trades self r) as [|first rest] eqn:Hfetch.
    - now subst.
    - destruct r as [trades|]; [|reflexivity].
      destruct (fetch_last _ _ _ _ Hfetch)
        as (newest & others & Htrades & Hlast & Hnew).
      rewrite Hlast, (new_has_timestamp _ _ Hmark Hnew) in Hcycle.
      simpl in Hcycle. subst trades.
      unfold TradeListener._fetch_new_trades.
      rewrite scan_cons, Hcycle. unfold is_new.
      now rewrite Z.ltb_irrefl. }
  split; [exact Hempty|].
  unfold TradeListener.poll_cycle. now rewrite Hempty.
Qed.

Lemma C6_witness_feed_5_to_1 :
  TradeListener._fetch_new_trades (TradeListener.init "0xTarget" 5)
    (TradeListener.Json feed_5_to_1) = []
  /\ TradeListener.poll_cycle unit no_callback (TradeListener.init "0xTarget" 5) tt
       (TradeListener.Json feed_5_to_1)
     = Ok (TradeListener.init "0xTarget" 5, tt).
Proof.
  apply (C6_repoll_of_unchanged_feed_is_empty unit no_callback
           (TradeListener.init "0xTarget" 2) (TradeListener.init "0xTarget" 5)
           tt tt (TradeListener.Json feed_5_to_1)).
  - simpl. lia.
  - reflexivity.
Defined.

(** C10.  A record without a timestamp counts as timestamp 0.  With a
    non-negative high-water mark no poll returns such a record; the mark is
    non-negative in every state the loop reaches from a start at a
    non-negative clock value, so no poll of a running watcher returns one.
    [_fetch_new_trades] raises nothing on such a record: it returns a list. *)
Theorem C10_record_without_timestamp_is_never_yielded :
  forall (trade : Trade.t),
    Trade.timestamp trade = None ->
    TradeListener.trade_ts trade = 0
    /\ (forall self r,
          0 <= TradeListener.last_trade_timestamp self ->
          ~ In trade (TradeListener._fetch_new_trades self r))
    /\ (forall (C : Type) (callback : C -> Trade.t -> result C)
               target now feed c self' c' r,
          0 <= now ->
          TradeListener.run_polling_loop C callback
            (TradeListener.init target now) c feed = Ok (self', c') ->
          ~ In trade (TradeListener._fetch_new_trades self' r)).
Proof.
  intros trade Hnone.
  assert (Hzero : TradeListener.trade_ts trade = 0).
  { unfold TradeListener.trade_ts. now rewrite Hnone. }
  assert (Hnever : forall self r,
             0 <= TradeListener.last_trade_timestamp self ->
             ~ In trade (TradeListener._fetch_new_trades self r)).
  { intros self [trades|] Hmark Hin; [|exact Hin].
    unfold TradeListener._fetch_new_trades in Hin. apply in_rev in Hin.
    pose proof (scan_all_new (TradeListener.last_trade_timestamp self) trades) as Hall.
    apply (proj1 (Forall_forall _ _) Hall) in Hin. lia. }
  split; [exact Hzero|]. split; [exact Hnever|].
  intros C callback target now feed c self' c' r Hnow Hrun.
  apply Hnever. apply run_polling_loop_monotone in Hrun. simpl in Hrun. lia.
Qed.

Lemma C10_witness_record_without_timestamp :
  TradeListener._fetch_new_trades (TradeListener.init "0xTarget" 2)
    (TradeListener.Json feed_without_timestamp) = []
  /\ ~ In (trade_record None (Some BUY) (Some (NFloat 0.5)) (Some (NInt 10)))
          (TradeListener._fetch_new_trades (TradeListener.init "0xTarget" 2)
             (TradeListener.Json feed_without_timestamp)).
Proof.
  split; [reflexivity|].
  apply (proj1 (proj2 (C10_record_without_timestamp_is_never_yielded
                         (trade_record None (Some BUY) (Some (NFloat 0.5))
                            (Some (NInt 10))) eq_refl))).
  simpl. lia.
Defined.

(** * The copy engine *)

(** A positive float is not zero. *)
Lemma positive_is_nonzero (f : float) :
  PrimFloat.ltb 0 f = true -> PrimFloat.eqb f 0 = false.
Proof.
  rewrite ltb_spec, eqb_spec.
  change (Prim2SF 0) with (S754_zero false).
  destruct (Prim2SF f) as [s|s| |s m e]; try destruct s;
    unfold SFltb, SFeqb; simpl; congruence.
Qed.

Section BuildOrderFacts.

Variable cfg : Config.

(** What [build_order] computes once the filter has passed and every key
    it reads is there. *)
Lemma build_order_eligible (trade : Trade.t) (p s : num) (fp fs : float)
    (sd tok cid : string) :
  CopyTrader._apply_filters cfg trade = Ok true ->
  Trade.price trade = Some p -> Py.float p = Ok fp ->
  Trade.size trade = Some s -> Py.float s = Ok fs ->
  Trade.side trade = Some sd ->
  Trade.asset trade = Some tok ->
  Trade.conditionId trade = Some cid ->
  CopyTrader.build_order cfg trade =
    let copied_amount := spec_copied_amount cfg fp fs in
    if PrimFloat.ltb copied_amount (MIN_TRADE_USDC cfg)
    then Ok (CopyTrader.Skip CopyTrader.TooSmall)
    else
      shares <- Py.truediv copied_amount fp ;;
      Ok (CopyTrader.Order
            {| OrderArgs.token_id := tok;
               OrderArgs.price :=
                 spec_limit_price cfg (if String.eqb sd "BUY" then BUY else SELL) fp;
               OrderArgs.size := Py.max shares (MIN_TRADE_SIZE cfg);
               OrderArgs.side := if String.eqb sd "BUY" then BUY else SELL |}).
Proof.
  intros Hpass Hp Hfp Hs Hfs Hsd Htok Hcid.
  unfold CopyTrader.build_order.
  rewrite Hpass, Hp, Hs, Hsd, Htok, Hcid. simpl.
  rewrite Hfp, Hfs. simpl.
  unfold spec_copied_amount, spec_limit_price. reflexivity.
Qed.

(** An order is built only from a trade that passed the filter and carries
    the keys read. *)
Lemma build_order_inv (trade : Trade.t) (order : OrderArgs.t) :
  CopyTrader.build_order cfg trade = Ok (CopyTrader.Order order) ->
  exists p s fp fs sd tok cid,
    CopyTrader._apply_filters cfg trade = Ok true
    /\ Trade.price trade = Some p /\ Py.float p = Ok fp
    /\ Trade.size trade = Some s /\ Py.float s = Ok fs
    /\ Trade.side trade = Some sd
    /\ Trade.asset trade = Some tok
    /\ Trade.conditionId trade = Some cid.
Proof.
  intros Hbuild.
  assert (Hpass : CopyTrader._apply_filters cfg trade = Ok true).
  { unfold CopyTrader.build_order in Hbuild.
    destruct (CopyTrader._apply_filters cfg trade) as [[|]|]; simpl in Hbuild;
      [reflexivity | discriminate Hbuild | discriminate Hbuild]. }
  unfold CopyTrader.build_order in Hbuild. rewrite Hpass in Hbuild.
  simpl in Hbuild.
  assert (Hsize : exists s fs, Trade.size trade = Some s /\ Py.float s = Ok fs).
  { unfold CopyTrader._apply_filters in Hpass.
    destruct (Trade.size trade) as [s|]; [|discriminate].
    destruct (Py.float s) as [fs|] eqn:Hfs; [|discriminate].
    now exists s, fs. }
  destruct Hsize as (s & fs & Hs & Hfs).
  destruct (Trade.price trade) as [p|] eqn:Hp; [|discriminate]. simpl in Hbuild.
  destruct (Py.float p) as [fp|] eqn:Hfp; [|discriminate]. simpl in Hbuild.
  destruct (Trade.side trade) as [sd|] eqn:Hsd; [|discriminate]. simpl in Hbuild.
  rewrite Hs in Hbuild. simpl in Hbuild. rewrite Hfs in Hbuild. simpl in Hbuild.
  destruct (Trade.asset trade) as [tok|] eqn:Htok; [|discriminate]. simpl in Hbuild.
  destruct (Trade.conditionId trade) as [cid|] eqn:Hcid; [|discriminate].
  exists p, s, fp, fs, sd, tok, cid. repeat split; assumption.
Qed.

End BuildOrderFacts.

(** C7.  For a trade that passed the filter, with a positive price (and the
    keys [side], [asset] and [conditionId] present), the order size is the one
    of the specification: the amount copied is price times size times the
    allocation fraction, clamped to the maximum; when the clamped amount is
    below the minimum trade value the trade is skipped, otherwise the share
    count is the clamped amount over the original price, raised to the share
    floor.  With the constants of [config.py], price 0.20 and size 100 give a
    copied amount of 3 and 15 shares. *)
Theorem C7_order_size_follows_the_sizing_rule :
  (forall (cfg : Config) (trade : Trade.t) (p s : num) (fp fs : float)
          (sd tok cid : string),
      Trade.price trade = Some p -> Py.float p = Ok fp ->
      Trade.size trade = Some s -> Py.float s = Ok fs ->
      PrimFloat.ltb 0 fp = true ->
      CopyTrader._apply_filters cfg trade = Ok true ->
      Trade.side trade = Some sd ->
      Trade.asset trade = Some tok ->
      Trade.conditionId trade = Some cid ->
      match spec_copied_shares cfg fp fs with
      | None =>
          CopyTrader.build_order cfg trade = Ok (CopyTrader.Skip CopyTrader.TooSmall)
      | Some shares =>
          exists order,
            CopyTrader.build_order cfg trade = Ok (CopyTrader.Order order)
            /\ OrderArgs.size order = shares
      end)
  /\ spec_copied_amount config 0.2 100 = 3%float
  /\ spec_copied_shares config 0.2 100 = Some 15%float
  /\ exists order,
       CopyTrader.build_order config trade_100_at_020 = Ok (CopyTrader.Order order)
       /\ OrderArgs.size order = 15%float.
Proof.
  split; [|split; [|split]].
  - intros cfg trade p s fp fs sd tok cid Hp Hfp Hs Hfs Hpos Hpass Hsd Htok Hcid.
    rewrite (build_order_eligible cfg trade p s fp fs sd tok cid) by assumption.
    unfold spec_copied_shares. cbv zeta.
    destruct (PrimFloat.ltb (spec_copied_amount cfg fp fs) (MIN_TRADE_USDC cfg));
      [reflexivity|].
    unfold Py.truediv. change PrimFloat.zero with 0%float.
    rewrite (positive_is_nonzero fp Hpos). simpl.
    eexists. split; reflexivity.
  - vm_compute. reflexivity.
  - vm_compute. reflexivity.
  - eexists. split; vm_compute; reflexivity.
Qed.

Lemma C7_witness_100_shares_at_020 :
  exists order,
    CopyTrader.build_order config trade_100_at_020 = Ok (CopyTrader.Order order)
    /\ OrderArgs.size order = 15%float.
Proof.
  exact (proj1 C7_order_size_follows_the_sizing_rule config trade_100_at_020
           (NFloat 0.2) (NInt 100) 0.2%float 100%float BUY "token"%string
           "market"%string
           eq_refl eq_refl eq_refl eq_refl eq_refl eq_refl eq_refl eq_refl eq_refl).
Defined.

(** C8.  The share floor is applied after the clamp to the maximum, whatever
    the clamped amount: every order built has the size
    [max (clamped amount / price) floor].  So an order can be worth more than
    the maximum: with the constants of [config.py], one share at 0.90 passes
    the filter and is copied as 5 shares at 0.90, that is 4.5 for a maximum of
    4, and that order is submitted as it is. *)
Theorem C8_share_floor_can_push_the_order_over_the_cap :
  (forall (cfg : Config) (trade : Trade.t) (order : OrderArgs.t),
      CopyTrader.build_order cfg trade = Ok (CopyTrader.Order order) ->
      exists price size : float,
        OrderArgs.size order =
          Py.max (PrimFloat.div (spec_copied_amount cfg price size) price)
                 (MIN_TRADE_SIZE cfg))
  /\ exists (trade : Trade.t) (order : OrderArgs.t),
       CopyTrader._apply_filters config trade = Ok true
       /\ CopyTrader.build_order config trade = Ok (CopyTrader.Order order)
       /\ OrderArgs.size order = MIN_TRADE_SIZE config
       /\ PrimFloat.ltb (MAX_TRADE_USDC config)
            (PrimFloat.mul (OrderArgs.price order) (OrderArgs.size order)) = true
       /\ forall (Client : Type) (submit : Client -> OrderArgs.t -> Client * reply)
                 (client : Client),
            CopyTrader.execute_copy_trade config Client submit client trade
            = Ok (fst (submit client order),
                  CopyTrader.Submitted order (snd (submit client order))).
Proof.
  split.
  - intros cfg trade order Hbuild.
    destruct (build_order_inv cfg trade order Hbuild)
      as (p & s & fp & fs & sd & tok & cid
          & Hpass & Hp & Hfp & Hs & Hfs & Hsd & Htok & Hcid).
    rewrite (build_order_eligible cfg trade p s fp fs sd tok cid) in Hbuild
      by assumption.
    cbv zeta in Hbuild.
    destruct (PrimFloat.ltb (spec_copied_amount cfg fp fs) (MIN_TRADE_USDC cfg));
      [discriminate|].
    unfold Py.truediv in Hbuild.
    destruct (PrimFloat.eqb fp PrimFloat.zero); [discriminate|].
    simpl in Hbuild. injection Hbuild as <-.
    exists fp, fs. reflexivity.
  - exists trade_1_at_090.
    eexists. split; [vm_compute; reflexivity|].
    split; [vm_compute; reflexivity|].
    split; [vm_compute; reflexivity|].
    split; [vm_compute; reflexivity|].
    intros Client submit client.
    unfold CopyTrader.execute_copy_trade.
    replace (CopyTrader.build_order config trade_1_at_090)
      with (Ok (CopyTrader.Order
                  {| OrderArgs.token_id := "token";
                     OrderArgs.price := 0.9%float;
                     OrderArgs.size := 5%float;
                     OrderArgs.side := BUY |}))
      by (vm_compute; reflexivity).
    simpl. destruct (submit client _); reflexivity.
Qed.

Lemma C8_witness_1_share_at_090 :
  exists price size : float,
    5%float =
      Py.max (PrimFloat.div (spec_copied_amount config price size) price)
             (MIN_TRADE_SIZE config).
Proof.
  exact (proj1 C8_share_floor_can_push_the_order_over_the_cap config trade_1_at_090
           {| OrderArgs.token_id := "token";
              OrderArgs.price := 0.9%float;
              OrderArgs.size := 5%float;
              OrderArgs.side := BUY |}
           eq_refl).
Defined.

(** C9.  When a trade whose side is BUY or SELL ends in a submitted order,
    the order has the side of the trade: a SELL is never copied as a BUY nor
    a BUY as a SELL. *)
Theorem C9_copy_order_keeps_the_side :
  forall (cfg : Config) (Client : Type)
         (submit : Client -> OrderArgs.t -> Client * reply)
         (client client' : Client) (trade : Trade.t) (sd : string)
         (order : OrderArgs.t) (r : reply),
    Trade.side trade = Some sd ->
    sd = BUY \/ sd = SELL ->
    CopyTrader.execute_copy_trade cfg Client submit client trade
      = Ok (client', CopyTrader.Submitted order r) ->
    OrderArgs.side order = sd
    /\ (sd = SELL -> OrderArgs.side order <> BUY)
    /\ (sd = BUY -> OrderArgs.side order <> SELL).
Proof.
  intros cfg Client submit client client' trade sd order r Hsd Hside Hexec.
  assert (Hbuild : CopyTrader.build_order cfg trade = Ok (CopyTrader.Order order)).
  { unfold CopyTrader.execute_copy_trade in Hexec.
    destruct (CopyTrader.build_order cfg trade) as [[why|order']|e];
      simpl in Hexec; try discriminate Hexec.
    destruct (submit client order') as [client1 r1].
    now inversion Hexec. }
  assert (Hmirror : OrderArgs.side order = sd).
  { destruct (build_order_inv cfg trade order Hbuild)
      as (p & s & fp & fs & sd' & tok & cid
          & Hpass & Hp & Hfp & Hs & Hfs & Hsd' & Htok & Hcid).
    rewrite (build_order_eligible cfg trade p s fp fs sd' tok cid) in Hbuild
      by assumption.
    cbv zeta in Hbuild.
    destruct (PrimFloat.ltb _ _); [discriminate|].
    destruct (Py.truediv _ _); [|discriminate].
    simpl in Hbuild. injection Hbuild as <-. simpl.
    rewrite Hsd in Hsd'. injection Hsd' as <-.
    destruct Hside as [-> | ->]; reflexivity. }
  split; [exact Hmirror|].
  rewrite Hmirror. split; intros ->; discriminate.
Qed.

Lemma C9_witness_sell_is_copied_as_sell :
  OrderArgs.side
    {| OrderArgs.token_id := "token";
       OrderArgs.price := 0.2%float;
       OrderArgs.size := 15%float;
       OrderArgs.side := SELL |} = SELL.
Proof.
  exact (proj1 (C9_copy_order_keeps_the_side config unit accepting tt tt
                  trade_sold_100_at_020 SELL
                  {| OrderArgs.token_id := "token";
                     OrderArgs.price := 0.2%float;
                     OrderArgs.size := 15%float;
                     OrderArgs.side := SELL |}
                  (Response true) eq_refl (or_intror eq_refl) eq_refl)).
Defined.

(** C2, as stated, fails: an exception raised while a trade is evaluated
    leaves [execute_copy_trade].  A price of zero passes the filter and the
    sizing divides by it; a record without [side] raises [KeyError].  The
    exception ends the batch, the trade after it is not evaluated, and it
    ends the polling loop. *)
Lemma C2_counterexample_evaluation_exception_escapes :
  CopyTrader.execute_copy_trade config unit accepting tt trade_at_zero_price
    = Raise ZeroDivisionError
  /\ CopyTrader.execute_copy_trade config unit accepting tt trade_without_side
    = Raise (KeyError "side")
  /\ TradeListener.for_each _ (CopyTrader.callback config unit accepting) (tt, [])
       [trade_at_zero_price; trade_10_at_050]
    = Raise ZeroDivisionError
  /\ main accepting tt "0xTarget" 2
       [TradeListener.Json [trade_10_at_050; trade_at_zero_price]]
    = Raise ZeroDivisionError.
Proof.
  repeat split; vm_compute; reflexivity.
Qed.

(** C2, amended.  For every trade whose evaluation yields an order, no
    exception raised while the order is signed and submitted leaves
    [execute_copy_trade]: the call returns whatever the gateway does.  When
    the gateway raises for one trade of a batch, the batch goes on with the
    next trade. *)
Theorem C2_gateway_exception_does_not_escape :
  forall (cfg : Config) (Client : Type)
         (submit : Client -> OrderArgs.t -> Client * reply)
         (client : Client) (trade : Trade.t) (order : OrderArgs.t),
    CopyTrader.build_order cfg trade = Ok (CopyTrader.Order order) ->
    CopyTrader.execute_copy_trade cfg Client submit client trade
      = Ok (fst (submit client order),
            CopyTrader.Submitted order (snd (submit client order)))
    /\ forall (log : list CopyTrader.outcome) (rest : list Trade.t),
         snd (submit client order) = Raised ->
         TradeListener.for_each _ (CopyTrader.callback cfg Client submit)
           (client, log) (trade :: rest)
         = TradeListener.for_each _ (CopyTrader.callback cfg Client submit)
             (fst (submit client order),
              log ++ [CopyTrader.Submitted order Raised])
             rest.
Proof.
  intros cfg Client submit client trade order Hbuild.
  assert (Hexec : CopyTrader.execute_copy_trade cfg Client submit client trade
                  = Ok (fst (submit client order),
                        CopyTrader.Submitted order (snd (submit client order)))).
  { unfold CopyTrader.execute_copy_trade. rewrite Hbuild. simpl.
    now destruct (submit client order). }
  split; [exact Hexec|].
  intros log rest Hraised.
  simpl. unfold CopyTrader.callback at 1. simpl.
  rewrite Hexec, Hraised. reflexivity.
Qed.

Lemma C2_witness_gateway_raises :
  TradeListener.for_each _ (CopyTrader.callback config unit raising) (tt, [])
    [trade_100_at_020; trade_10_at_050]
  = TradeListener.for_each _ (CopyTrader.callback config unit raising)
      (tt, [CopyTrader.Submitted
              {| OrderArgs.token_id := "token";
                 OrderArgs.price := 0.2%float;
                 OrderArgs.size := 15%float;
                 OrderArgs.side := BUY |} Raised])
      [trade_10_at_050].
Proof.
  exact (proj2 (C2_gateway_exception_does_not_escape config unit raising tt
                  trade_100_at_020
                  {| OrderArgs.token_id := "token";
                     OrderArgs.price := 0.2%float;
                     OrderArgs.size := 15%float;
                     OrderArgs.side := BUY |}
                  eq_refl)
               [] [trade_10_at_050] eq_refl).
Defined.

(** A record whose size is absent or zero is skipped by the filter: no order
    is built and nothing is raised. *)
Lemma size_absent_or_zero_is_skipped (cfg : Config) (Client : Type)
    (submit : Client -> OrderArgs.t -> Client * reply) (client : Client)
    (trade : Trade.t) :
  Trade.size trade = None
  \/ (exists s fs, Trade.size trade = Some s /\ Py.float s = Ok fs
                   /\ PrimFloat.eqb fs 0 = true) ->
  CopyTrader._apply_filters cfg trade = Ok false
  /\ CopyTrader.execute_copy_trade cfg Client submit client trade
     = Ok (client, CopyTrader.Skipped CopyTrader.Filtered).
Proof.
  intros Hsize.
  assert (Hfilter : CopyTrader._apply_filters cfg trade = Ok false).
  { unfold CopyTrader._apply_filters.
    destruct Hsize as [-> | (s & fs & -> & Hfs & Hzero)]; [reflexivity|].
    rewrite Hfs. simpl. now rewrite Hzero. }
  split; [exact Hfilter|].
  unfold CopyTrader.execute_copy_trade, CopyTrader.build_order.
  now rewrite Hfilter.
Qed.

(** C3, on the code.  With the constants of [config.py] a record without
    [price] is not rejected by the filter: the amount 10 * 0 is not below the
    minimum of 0.  [execute_copy_trade] then reads [original_trade["price"]]
    and raises [KeyError], whatever the gateway; the exception ends the batch
    and the polling loop. *)
Theorem C3_record_without_price_raises_key_error :
  CopyTrader._apply_filters config trade_without_price = Ok true
  /\ (forall (Client : Type) (submit : Client -> OrderArgs.t -> Client * reply)
             (client : Client),
        CopyTrader.execute_copy_trade config Client submit client trade_without_price
        = Raise (KeyError "price"))
  /\ main accepting tt "0xTarget" 2
       [TradeListener.Json [trade_10_at_050; trade_without_price]]
     = Raise (KeyError "price").
Proof.
  split; [vm_compute; reflexivity|]. split.
  - intros Client submit client.
    unfold CopyTrader.execute_copy_trade.
    replace (CopyTrader.build_order config trade_without_price)
      with (@Raise CopyTrader.decision (KeyError "price"))
      by (vm_compute; reflexivity).
    reflexivity.
  - vm_compute. reflexivity.
Qed.

(** * Further properties of the trade watcher *)

Lemma sorted_app {A : Type} (Q : A -> A -> Prop) (l1 l2 : list A) :
  StronglySorted Q l1 -> StronglySorted Q l2 ->
  (forall a b, In a l1 -> In b l2 -> Q a b) ->
  StronglySorted Q (l1 ++ l2).
Proof.
  intros H1 H2 Hcross.
  induction H1 as [|a l1 Hl1 IH Ha]; simpl; [exact H2|].
  constructor.
  - apply IH. intros x y Hx Hy. apply Hcross; [now right | exact Hy].
  - apply Forall_app. split; [exact Ha|].
    apply Forall_forall. intros y Hy. apply Hcross; [now left | exact Hy].
Qed.

Lemma sorted_prefix {A : Type} (Q : A -> A -> Prop) (l1 l2 : list A) :
  StronglySorted Q (l1 ++ l2) -> StronglySorted Q l1.
Proof.
  induction l1 as [|a l1 IH]; simpl; intros H; [constructor|].
  inversion H as [|? ? Hrest Ha]; subst.
  constructor; [now apply IH|].
  apply Forall_app in Ha. exact (proj1 Ha).
Qed.

Lemma sorted_rev {A : Type} (Q : A -> A -> Prop) (l : list A) :
  StronglySorted Q l -> StronglySorted (fun a b => Q b a) (rev l).
Proof.
  intros H.
  induction H as [|a l Hl IH Ha]; simpl; [constructor|].
  apply sorted_app; [exact IH | repeat constructor |].
  intros x y Hx [<-|[]]. apply in_rev in Hx.
  exact (proj1 (Forall_forall _ _) Ha x Hx).
Qed.

(** The scan keeps an initial segment of the feed, and the record after that
    segment, when there is one, is not new. *)
Lemma scan_prefix (mark : Z) (trades : list Trade.t) :
  exists tail,
    trades = TradeListener.scan mark trades [] ++ tail
    /\ match tail with
       | [] => True
       | old :: _ => TradeListener.trade_ts old <= mark
       end.
Proof.
  induction trades as [|trade rest (tail & Hrest & Htail)].
  - exists []. split; [reflexivity | exact I].
  - rewrite scan_cons. unfold is_new.
    destruct (Z.ltb_spec mark (TradeListener.trade_ts trade)) as [Hnew|Hold].
    + exists tail. split; [simpl; now rewrite <- Hrest | exact Htail].
    + exists (trade :: rest). split; [reflexivity | exact Hold].
Qed.

(** X1.  Whatever the order of the feed, a poll returns, reversed, the longest
    initial run of new records of the feed: the feed is that run followed by
    a tail whose first record, when there is one, is not new.  So a poll
    returns no more trades than the feed holds, and returns nothing when the
    first record of the feed is not new, whatever follows it. *)
Theorem X1_fetch_returns_the_longest_new_prefix :
  forall (self : TradeListener.t) (trades : list Trade.t),
    let mark := TradeListener.last_trade_timestamp self in
    let new_trades :=
      TradeListener._fetch_new_trades self (TradeListener.Json trades) in
    (exists tail,
        trades = rev new_trades ++ tail
        /\ match tail with
           | [] => True
           | old :: _ => TradeListener.trade_ts old <= mark
           end)
    /\ Forall (fun trade => mark < TradeListener.trade_ts trade) new_trades
    /\ (List.length new_trades <= List.length trades)%nat
    /\ (forall old rest,
          trades = old :: rest -> TradeListener.trade_ts old <= mark ->
          new_trades = []).
Proof.
  intros self trades mark new_trades.
  destruct (scan_prefix mark trades) as (tail & Hsplit & Htail).
  assert (Hrev : rev new_trades = TradeListener.scan mark trades []).
  { unfold new_trades, TradeListener._fetch_new_trades. apply rev_involutive. }
  split; [|split; [|split]].
  - exists tail. rewrite Hrev. split; assumption.
  - apply Forall_forall. intros x Hx.
    assert (Hin : In x (rev new_trades)) by (apply -> in_rev; exact Hx).
    rewrite Hrev in Hin.
    exact (proj1 (Forall_forall _ _) (scan_all_new mark trades) x Hin).
  - rewrite <- length_rev, Hrev.
    rewrite Hsplit at 2. rewrite length_app. lia.
  - intros old rest -> Hold.
    unfold new_trades, TradeListener._fetch_new_trades. fold mark.
    rewrite scan_cons. unfold is_new.
    destruct (Z.ltb_spec mark (TradeListener.trade_ts old)); [lia | reflexivity].
Qed.

(** The recorder is handed every trade of a batch. *)
Lemma recorder_for_each (trades log : list Trade.t) :
  TradeListener.for_each _ recorder log trades = Ok (log ++ trades).
Proof.
  revert log.
  induction trades as [|trade rest IH]; intros log; simpl.
  - now rewrite app_nil_r.
  - unfold recorder at 1. simpl. rewrite IH, <- app_assoc. reflexivity.
Qed.

(** A turn of the loop that completes moves the watcher as it moves it under
    the recorder, which is handed the trades of the poll. *)
Lemma poll_cycle_recorder (C : Type) (callback : C -> Trade.t -> result C)
    (self self' : TradeListener.t) (c c' : C) (r : TradeListener.response)
    (log : list Trade.t) :
  TradeListener.poll_cycle C callback self c r = Ok (self', c') ->
  TradeListener.poll_cycle _ recorder self log r
  = Ok (self', log ++ TradeListener._fetch_new_trades self r).
Proof.
  unfold TradeListener.poll_cycle.
  destruct (TradeListener._fetch_new_trades self r) as [|first rest].
  - intros H. inversion H. now rewrite app_nil_r.
  - rewrite recorder_for_each.
    destruct (TradeListener.for_each C callback c (first :: rest)); simpl;
      intros H; inversion H; reflexivity.
Qed.

(** Under the recorder every turn completes. *)
Lemma recorder_poll_cycle (self : TradeListener.t) (log : list Trade.t)
    (r : TradeListener.response) :
  exists self',
    TradeListener.poll_cycle _ recorder self log r
    = Ok (self', log ++ TradeListener._fetch_new_trades self r).
Proof.
  unfold TradeListener.poll_cycle.
  destruct (TradeListener._fetch_new_trades self r) as [|first rest].
  - exists self. now rewrite app_nil_r.
  - rewrite recorder_for_each. simpl. eexists. reflexivity.
Qed.

(** Under the recorder a run completes, and keeps what every turn keeps. *)
Lemma recorder_run_invariant
    (Inv : TradeListener.t -> list Trade.t -> Prop)
    (P : TradeListener.response -> Prop) :
  (forall self log r self',
      P r -> Inv self log ->
      TradeListener.poll_cycle _ recorder self log r
      = Ok (self', log ++ TradeListener._fetch_new_trades self r) ->
      Inv self' (log ++ TradeListener._fetch_new_trades self r)) ->
  forall feed self log,
    Forall P feed -> Inv self log ->
    exists self' log',
      TradeListener.run_polling_loop _ recorder self log feed = Ok (self', log')
      /\ Inv self' log'.
Proof.
  intros Hstep feed.
  induction feed as [|r rest IH]; intros self log Hfeed Hinv; simpl.
  - exists self, log. split; [reflexivity | exact Hinv].
  - inversion Hfeed as [|? ? Hr Hrest]; subst.
    destruct (recorder_poll_cycle self log r) as (self1 & Hcycle).
    rewrite Hcycle. simpl.
    apply IH; [exact Hrest|].
    exact (Hstep self log r self1 Hr Hinv Hcycle).
Qed.

(** Every trade a poll returns is new, and is a record of the feed. *)
Lemma fetch_all_new (self : TradeListener.t) (r : TradeListener.response) :
  Forall (fun trade => TradeListener.last_trade_timestamp self
                       < TradeListener.trade_ts trade)
         (TradeListener._fetch_new_trades self r).
Proof.
  destruct r as [trades|]; [|constructor].
  apply Forall_forall. intros x Hx.
  unfold TradeListener._fetch_new_trades in Hx. apply in_rev in Hx.
  exact (proj1 (Forall_forall _ _) (scan_all_new _ trades) x Hx).
Qed.

Lemma fetch_subset (self : TradeListener.t) (trades : list Trade.t) (x : Trade.t) :
  In x (TradeListener._fetch_new_trades self (TradeListener.Json trades)) ->
  In x trades.
Proof.
  unfold TradeListener._fetch_new_trades. intros Hx. apply in_rev in Hx.
  destruct (scan_prefix (TradeListener.last_trade_timestamp self) trades)
    as (tail & Hsplit & _).
  rewrite Hsplit. apply in_or_app. now left.
Qed.

(** X2.  A run of the loop never hands the callback a trade whose timestamp
    is at or below the mark the run started from: trades dated at or before
    the start of the watcher are never replayed, whatever the feed returns
    and in whatever order.  (Under a callback that does not raise the run
    completes.) *)
Theorem X2_run_never_delivers_a_trade_at_or_below_the_initial_mark :
  forall (self : TradeListener.t) (feed : list TradeListener.response),
  exists (self' : TradeListener.t) (log : list Trade.t),
    TradeListener.run_polling_loop _ recorder self [] feed = Ok (self', log)
    /\ Forall (fun trade => TradeListener.last_trade_timestamp self
                            < TradeListener.trade_ts trade) log.
Proof.
  intros self feed.
  destruct (recorder_run_invariant
              (fun s log =>
                 TradeListener.last_trade_timestamp self
                 <= TradeListener.last_trade_timestamp s
                 /\ Forall (fun trade => TradeListener.last_trade_timestamp self
                                         < TradeListener.trade_ts trade) log)
              (fun _ => True))
    with (feed := feed) (self := self) (log := @nil Trade.t)
    as (self' & log & Hrun & _ & Hlog).
  - intros s log r s' _ [Hmark Hlog] Hcycle. split.
    + apply poll_cycle_monotone in Hcycle. lia.
    + apply Forall_app. split; [exact Hlog|].
      eapply Forall_impl; [|apply fetch_all_new].
      simpl. intros trade Hnew. lia.
  - apply Forall_forall. intros; exact I.
  - split; [lia | constructor].
  - exists self', log. split; assumption.
Qed.

Section CausalOrder.

(** [R] is [<=] or [<]. *)
Variable R : Z -> Z -> Prop.
Hypothesis R_of_lt : forall a b, a < b -> R a b.
Hypothesis R_le : forall a b, R a b -> a <= b.

Lemma batch_sorted (self : TradeListener.t) (trades : list Trade.t) :
  StronglySorted
    (fun a b => R (TradeListener.trade_ts b) (TradeListener.trade_ts a)) trades ->
  StronglySorted
    (fun a b => R (TradeListener.trade_ts a) (TradeListener.trade_ts b))
    (TradeListener._fetch_new_trades self (TradeListener.Json trades)).
Proof.
  intros Hsorted. unfold TradeListener._fetch_new_trades.
  destruct (scan_prefix (TradeListener.last_trade_timestamp self) trades)
    as (tail & Hsplit & _).
  rewrite Hsplit in Hsorted. apply sorted_prefix in Hsorted.
  exact (sorted_rev _ _ Hsorted).
Qed.

(** Over a run on feeds sorted newest first, from a non-negative mark, the
    trades handed to the callback are in the order [R] of timestamps, and none
    is more recent than the final mark. *)
Lemma run_in_causal_order (feed : list TradeListener.response)
    (self : TradeListener.t) :
  0 <= TradeListener.last_trade_timestamp self ->
  feed_newest_first R feed ->
  exists (self' : TradeListener.t) (log : list Trade.t),
    TradeListener.run_polling_loop _ recorder self [] feed = Ok (self', log)
    /\ StronglySorted
         (fun a b => R (TradeListener.trade_ts a) (TradeListener.trade_ts b)) log
    /\ Forall (fun trade => TradeListener.trade_ts trade
                            <= TradeListener.last_trade_timestamp self') log.
Proof.
  intros Hmark Hfeed.
  destruct (recorder_run_invariant
              (fun s log =>
                 0 <= TradeListener.last_trade_timestamp s
                 /\ StronglySorted
                      (fun a b => R (TradeListener.trade_ts a)
                                    (TradeListener.trade_ts b)) log
                 /\ Forall (fun trade => TradeListener.trade_ts trade
                                         <= TradeListener.last_trade_timestamp s)
                           log)
              (fun r =>
                 match r with
                 | TradeListener.Json trades =>
                     StronglySorted
                       (fun a b => R (TradeListener.trade_ts b)
                                     (TradeListener.trade_ts a)) trades
                 | TradeListener.RequestException => True
                 end))
    with (feed := feed) (self := self) (log := @nil Trade.t)
    as (self' & log & Hrun & _ & Hsorted & Hbound).
  - intros s log r s' Hr (Hs & Hlog & Hle) Hcycle.
    pose proof (poll_cycle_monotone _ _ _ _ _ _ _ Hcycle) as Hmono.
    pose proof (poll_cycle_mark _ _ _ _ _ _ _ Hcycle) as Hupdate.
    pose proof (fetch_all_new s r) as Hnew.
    destruct (TradeListener._fetch_new_trades s r) as [|first rest] eqn:Hfetch.
    { subst s'. rewrite app_nil_r. repeat split; assumption. }
    destruct r as [trades|]; [|discriminate].
    destruct (fetch_last _ _ _ _ Hfetch) as (newest & others & Htrades & Hlast & Hn).
    rewrite Hlast, (new_has_timestamp _ _ Hs Hn) in Hupdate. simpl in Hupdate.
    split; [lia|]. split.
    + apply sorted_app; [exact Hlog | |].
      * rewrite <- Hfetch. apply batch_sorted. exact Hr.
      * intros a b Ha Hb. apply R_of_lt.
        apply (proj1 (Forall_forall _ _) Hle) in Ha.
        apply (proj1 (Forall_forall _ _) Hnew) in Hb. lia.
    + apply Forall_app. split.
      * eapply Forall_impl; [|exact Hle]. simpl. intros; lia.
      * apply Forall_forall. intros x Hx. rewrite <- Hfetch in Hx.
        apply fetch_subset in Hx. rewrite Hupdate. subst trades.
        inversion Hr as [|? ? _ Hothers]; subst.
        destruct Hx as [<-|Hx]; [lia|].
        apply R_le. exact (proj1 (Forall_forall _ _) Hothers x Hx).
  - exact Hfeed.
  - repeat split; [exact Hmark | constructor | constructor].
  - exists self', log. repeat split; assumption.
Qed.

End CausalOrder.

(** X3.  Over a whole run on feeds sorted newest first, started from a
    non-negative mark, the trades are handed to the callback in causal order,
    oldest first, across polls as within each poll, and none is more recent
    than the mark the run ends with. *)
Theorem X3_run_delivers_trades_in_causal_order :
  forall (self : TradeListener.t) (feed : list TradeListener.response),
    0 <= TradeListener.last_trade_timestamp self ->
    feed_newest_first Z.le feed ->
    exists (self' : TradeListener.t) (log : list Trade.t),
      TradeListener.run_polling_loop _ recorder self [] feed = Ok (self', log)
      /\ oldest_first log
      /\ Forall (fun trade => TradeListener.trade_ts trade
                              <= TradeListener.last_trade_timestamp self') log.
Proof.
  intros self feed Hmark Hfeed.
  apply (run_in_causal_order Z.le); try assumption; intros; lia.
Qed.

Lemma feed_two_polls_sorted : feed_newest_first Z.lt feed_two_polls.
Proof.
  unfold feed_newest_first, feed_two_polls, feed_5_to_1, TradeListener.trade_ts.
  repeat (constructor; simpl; try lia).
Qed.

Lemma X3_witness_two_polls :
  exists (self' : TradeListener.t) (log : list Trade.t),
    TradeListener.run_polling_loop _ recorder (TradeListener.init "0xTarget" 2) []
      feed_two_polls = Ok (self', log)
    /\ oldest_first log
    /\ Forall (fun trade => TradeListener.trade_ts trade
                            <= TradeListener.last_trade_timestamp self') log.
Proof.
  apply X3_run_delivers_trades_in_causal_order.
  - simpl. lia.
  - unfold feed_newest_first, feed_two_polls, feed_5_to_1, TradeListener.trade_ts.
    repeat (constructor; simpl; try lia).
Defined.

(** Timestamps in strictly increasing order do not repeat. *)
Lemma strictly_sorted_nodup (log : list Trade.t) :
  StronglySorted
    (fun a b => TradeListener.trade_ts a < TradeListener.trade_ts b) log ->
  NoDup (map TradeListener.trade_ts log).
Proof.
  intros H.
  induction H as [|a l Hl IH Ha]; simpl; constructor; [|exact IH].
  intros Hin. apply in_map_iff in Hin. destruct Hin as (x & Heq & Hx).
  apply (proj1 (Forall_forall _ _) Ha) in Hx. lia.
Qed.

(** X4.  When no two records of a response share a timestamp (feeds strictly
    sorted, newest first), a run started from a non-negative mark hands the
    callback trades of strictly increasing timestamps: no timestamp, hence no
    trade, is delivered twice over the run, however often the feed repeats
    it. *)
Theorem X4_run_delivers_no_timestamp_twice :
  forall (self : TradeListener.t) (feed : list TradeListener.response),
    0 <= TradeListener.last_trade_timestamp self ->
    feed_newest_first Z.lt feed ->
    exists (self' : TradeListener.t) (log : list Trade.t),
      TradeListener.run_polling_loop _ recorder self [] feed = Ok (self', log)
      /\ StronglySorted
           (fun a b => TradeListener.trade_ts a < TradeListener.trade_ts b) log
      /\ NoDup (map TradeListener.trade_ts log)
      /\ NoDup log.
Proof.
  intros self feed Hmark Hfeed.
  destruct (run_in_causal_order Z.lt) with (feed := feed) (self := self)
    as (self' & log & Hrun & Hsorted & _); try assumption; try (intros; lia).
  exists self', log. split; [exact Hrun|]. split; [exact Hsorted|].
  pose proof (strictly_sorted_nodup log Hsorted) as Hnodup.
  split; [exact Hnodup|].
  exact (NoDup_map_inv _ _ Hnodup).
Qed.

Lemma X4_witness_two_polls :
  exists (self' : TradeListener.t) (log : list Trade.t),
    TradeListener.run_polling_loop _ recorder (TradeListener.init "0xTarget" 2) []
      feed_two_polls = Ok (self', log)
    /\ StronglySorted
         (fun a b => TradeListener.trade_ts a < TradeListener.trade_ts b) log
    /\ NoDup (map TradeListener.trade_ts log)
    /\ NoDup log.
Proof.
  apply X4_run_delivers_no_timestamp_twice.
  - simpl. lia.
  - exact feed_two_polls_sorted.
Defined.

(** * Further properties of the copy engine *)

Lemma ltb_irrefl (f : float) : PrimFloat.ltb f f = false.
Proof.
  rewrite ltb_spec.
  destruct (Prim2SF f) as [s|s| |s m e]; unfold SFltb; simpl;
    try reflexivity; try (destruct s; reflexivity).
  rewrite Z.compare_refl, Pos.compare_cont_refl.
  destruct s; reflexivity.
Qed.

(** [max(a, b)] is not below [b], and [min(a, b)] is not above [b]. *)
Lemma py_max_not_below (a b : float) : PrimFloat.ltb (Py.max a b) b = false.
Proof.
  unfold Py.max. destruct (PrimFloat.ltb a b) eqn:Hab;
    [apply ltb_irrefl | exact Hab].
Qed.

Lemma py_min_not_above (a b : float) : PrimFloat.ltb b (Py.min a b) = false.
Proof.
  unfold Py.min. destruct (PrimFloat.ltb b a) eqn:Hba;
    [apply ltb_irrefl | exact Hba].
Qed.

(** A finite float is a zero or a mantissa and an exponent. *)
Lemma finite_cases (f : float) :
  PrimFloat.is_finite f = true ->
  (exists s, Prim2SF f = S754_zero s)
  \/ (exists s m e, Prim2SF f = S754_finite s m e).
Proof.
  unfold PrimFloat.is_finite, Prim2SF.
  destruct (is_nan f); [discriminate|].
  destruct (is_infinity f); [discriminate|]. intros _.
  destruct (is_zero f); [left; eexists; reflexivity|].
  destruct (Z.frexp f) as [r exp].
  destruct (shr_fexp prec emax _ _ _) as [shr e'].
  destruct (shr_m shr); [left | right | left]; repeat eexists.
Qed.

(** A finite amount times a price of zero is below every positive minimum. *)
Lemma finite_times_zero_below_positive (f minimum : float) :
  PrimFloat.is_finite f = true ->
  PrimFloat.ltb 0 minimum = true ->
  PrimFloat.ltb (PrimFloat.mul f 0) minimum = true.
Proof.
  intros Hfinite Hpos.
  rewrite ltb_spec in *. rewrite mul_spec.
  change (Prim2SF 0) with (S754_zero false) in *.
  unfold SF64mul.
  destruct (finite_cases f Hfinite) as [(s & ->) | (s & m & e & ->)]; simpl;
    destruct (Prim2SF minimum) as [s'|s'| |s' m' e']; unfold SFltb in *;
    simpl in *; congruence.
Qed.

Section BuiltOrders.

Variable cfg : Config.

(** An order that was built, read back: the keys it came from, and the two
    tests it went through. *)
Lemma build_order_shape (trade : Trade.t) (order : OrderArgs.t) :
  CopyTrader.build_order cfg trade = Ok (CopyTrader.Order order) ->
  exists (fp fs : float) (sd tok : string),
    Trade.side trade = Some sd
    /\ Trade.asset trade = Some tok
    /\ (exists p, Trade.price trade = Some p /\ Py.float p = Ok fp)
    /\ (exists s, Trade.size trade = Some s /\ Py.float s = Ok fs)
    /\ PrimFloat.eqb fp 0 = false
    /\ PrimFloat.ltb (spec_copied_amount cfg fp fs) (MIN_TRADE_USDC cfg) = false
    /\ order =
         {| OrderArgs.token_id := tok;
            OrderArgs.price :=
              spec_limit_price cfg (if String.eqb sd "BUY" then BUY else SELL) fp;
            OrderArgs.size :=
              Py.max (PrimFloat.div (spec_copied_amount cfg fp fs) fp)
                     (MIN_TRADE_SIZE cfg);
            OrderArgs.side := if String.eqb sd "BUY" then BUY else SELL |}.
Proof.
  intros Hbuild.
  destruct (build_order_inv cfg trade order Hbuild)
    as (p & s & fp & fs & sd & tok & cid
        & Hpass & Hp & Hfp & Hs & Hfs & Hsd & Htok & Hcid).
  rewrite (build_order_eligible cfg trade p s fp fs sd tok cid) in Hbuild
    by assumption.
  cbv zeta in Hbuild.
  destruct (PrimFloat.ltb (spec_copied_amount cfg fp fs) (MIN_TRADE_USDC cfg))
    eqn:Hsmall; [discriminate|].
  unfold Py.truediv in Hbuild. change PrimFloat.zero with 0%float in Hbuild.
  destruct (PrimFloat.eqb fp 0) eqn:Hzero; [discriminate|].
  simpl in Hbuild. injection Hbuild as <-.
  exists fp, fs, sd, tok. repeat split; try assumption.
  - now exists p.
  - now exists s.
Qed.

Lemma built_order_within_limits (trade : Trade.t) (order : OrderArgs.t) :
  CopyTrader.build_order cfg trade = Ok (CopyTrader.Order order) ->
  order_within_limits cfg order.
Proof.
  intros Hbuild.
  destruct (build_order_shape trade order Hbuild)
    as (fp & fs & sd & tok & _ & _ & _ & _ & _ & _ & ->).
  split; simpl.
  - destruct (String.eqb sd "BUY"); [now left | now right].
  - apply py_max_not_below.
Qed.

(** What the filter answers when it answers: [True] only for a record with a
    size that is not zero, an amount not below the minimum and a slug
    without the marker. *)
Lemma apply_filters_true (trade : Trade.t) :
  CopyTrader._apply_filters cfg trade = Ok true ->
  exists s fs fp,
    Trade.size trade = Some s /\ Py.float s = Ok fs
    /\ PrimFloat.eqb fs 0 = false
    /\ Py.float (get (Trade.price trade) (NInt 0)) = Ok fp
    /\ PrimFloat.ltb (PrimFloat.mul fs fp) (MIN_TRADE_USDC cfg) = false
    /\ (let slug := get (Trade.slug trade) EmptyString in
        Py.truthy slug && Py.contains "4h" slug = false).
Proof.
  unfold CopyTrader._apply_filters.
  destruct (Trade.size trade) as [s|]; [|discriminate]. simpl.
  destruct (Py.float s) as [fs|] eqn:Hfs; [|discriminate]. simpl.
  destruct (PrimFloat.eqb fs 0) eqn:Hzero; [discriminate|].
  destruct (Py.float (get (Trade.price trade) (NInt 0))) as [fp|] eqn:Hfp;
    [|discriminate]. simpl.
  destruct (PrimFloat.ltb (PrimFloat.mul fs fp) (MIN_TRADE_USDC cfg)) eqn:Hmin;
    [discriminate|].
  destruct (Py.truthy _ && Py.contains "4h" _) eqn:Hslug; [discriminate|].
  intros _. exists s, fs, fp. repeat split; assumption.
Qed.

End BuiltOrders.

(** A submission is the submission of the order that was built. *)
Lemma submitted_was_built (cfg : Config) (Client : Type)
    (submit : Client -> OrderArgs.t -> Client * reply)
    (client client' : Client) (trade : Trade.t) (order : OrderArgs.t) (r : reply) :
  CopyTrader.execute_copy_trade cfg Client submit client trade
    = Ok (client', CopyTrader.Submitted order r) ->
  CopyTrader.build_order cfg trade = Ok (CopyTrader.Order order)
  /\ submit client order = (client', r).
Proof.
  unfold CopyTrader.execute_copy_trade.
  destruct (CopyTrader.build_order cfg trade) as [[why|order']|e]; simpl;
    try discriminate.
  destruct (submit client order') as [client1 r1] eqn:Hsubmit.
  intros H. inversion H; subst. split; [reflexivity | exact Hsubmit].
Qed.

(** A trade that is skipped leaves the gateway alone. *)
Lemma skipped_leaves_client (cfg : Config) (Client : Type)
    (submit : Client -> OrderArgs.t -> Client * reply)
    (client client' : Client) (trade : Trade.t) (why : CopyTrader.skip) :
  CopyTrader.execute_copy_trade cfg Client submit client trade
    = Ok (client', CopyTrader.Skipped why) ->
  client' = client.
Proof.
  unfold CopyTrader.execute_copy_trade.
  destruct (CopyTrader.build_order cfg trade) as [[why'|order']|e]; simpl;
    try discriminate.
  - intros H. now inversion H.
  - destruct (submit client order'). discriminate.
Qed.

(** X6.  A trade whose slug contains the marker [4h] is never copied,
    whatever the configuration and the other keys of the record: the filter
    does not let it pass, no order is built from it and none is submitted. *)
Theorem X6_trade_in_a_4h_market_is_never_copied :
  forall (cfg : Config) (trade : Trade.t) (slug : string),
    Trade.slug trade = Some slug ->
    Py.contains "4h" slug = true ->
    CopyTrader._apply_filters cfg trade <> Ok true
    /\ (forall order,
          CopyTrader.build_order cfg trade <> Ok (CopyTrader.Order order))
    /\ (forall (Client : Type) (submit : Client -> OrderArgs.t -> Client * reply)
               (client client' : Client) (order : OrderArgs.t) (r : reply),
          CopyTrader.execute_copy_trade cfg Client submit client trade
          <> Ok (client', CopyTrader.Submitted order r)).
Proof.
  intros cfg trade slug Hslug Hcontains.
  assert (Hfilter : CopyTrader._apply_filters cfg trade <> Ok true).
  { intros Hpass.
    destruct (apply_filters_true cfg trade Hpass)
      as (s & fs & fp & _ & _ & _ & _ & _ & Hmarker).
    rewrite Hslug in Hmarker. cbv zeta in Hmarker. simpl get in Hmarker.
    rewrite Hcontains in Hmarker.
    destruct slug; [discriminate Hcontains | discriminate Hmarker]. }
  assert (Hbuild : forall order,
             CopyTrader.build_order cfg trade <> Ok (CopyTrader.Order order)).
  { intros order Hbuild.
    destruct (build_order_inv cfg trade order Hbuild) as (? & ? & ? & ? & ? & ? & ? & Hpass & _).
    exact (Hfilter Hpass). }
  split; [exact Hfilter|]. split; [exact Hbuild|].
  intros Client submit client client' order r Hexec.
  apply submitted_was_built in Hexec. exact (Hbuild order (proj1 Hexec)).
Qed.

Lemma X6_witness_btc_4h_market :
  CopyTrader._apply_filters config trade_in_4h_market <> Ok true.
Proof.
  exact (proj1 (X6_trade_in_a_4h_market_is_never_copied config trade_in_4h_market
                  "btc-updown-4h-1700000000" eq_refl eq_refl)).
Defined.

(** X7.  A record whose size is absent, or is zero (the integer 0, or the
    float 0.0 or -0.0), is skipped by the filter whatever its other keys and
    whatever the configuration: nothing is raised, no order is built and the
    gateway is not called. *)
Theorem X7_record_of_size_zero_or_without_size_is_skipped :
  forall (cfg : Config) (Client : Type)
         (submit : Client -> OrderArgs.t -> Client * reply) (client : Client)
         (trade : Trade.t),
    Trade.size trade = None
    \/ Trade.size trade = Some (NInt 0)
    \/ (exists f, Trade.size trade = Some (NFloat f) /\ PrimFloat.eqb f 0 = true) ->
    CopyTrader._apply_filters cfg trade = Ok false
    /\ CopyTrader.build_order cfg trade = Ok (CopyTrader.Skip CopyTrader.Filtered)
    /\ CopyTrader.execute_copy_trade cfg Client submit client trade
       = Ok (client, CopyTrader.Skipped CopyTrader.Filtered).
Proof.
  intros cfg Client submit client trade Hsize.
  assert (Hcases : Trade.size trade = None
                   \/ (exists s fs, Trade.size trade = Some s
                                    /\ Py.float s = Ok fs
                                    /\ PrimFloat.eqb fs 0 = true)).
  { destruct Hsize as [Hnone | [Hint | (f & Hfloat & Hzero)]].
    - now left.
    - right. exists (NInt 0), 0%float.
      split; [exact Hint | split; reflexivity].
    - right. exists (NFloat f), f. repeat split; assumption. }
  destruct (size_absent_or_zero_is_skipped cfg Client submit client trade Hcases)
    as [Hfilter Hexec].
  split; [exact Hfilter|]. split; [|exact Hexec].
  unfold CopyTrader.build_order. now rewrite Hfilter.
Qed.

Lemma X7_witness_size_zero :
  CopyTrader.execute_copy_trade config unit accepting tt trade_of_size_zero
  = Ok (tt, CopyTrader.Skipped CopyTrader.Filtered).
Proof.
  exact (proj2 (proj2 (X7_record_of_size_zero_or_without_size_is_skipped config
                         unit accepting tt trade_of_size_zero
                         (or_intror (or_introl eq_refl))))).
Defined.

(** X8.  Under a configuration whose minimum trade value is positive, a
    record without [price] and with a finite size is skipped by the filter:
    the missing price counts as 0, the amount is zero and falls below the
    minimum.  Nothing is raised and the gateway is not called. *)
Theorem X8_record_without_price_is_skipped_under_a_positive_minimum :
  forall (cfg : Config) (Client : Type)
         (submit : Client -> OrderArgs.t -> Client * reply) (client : Client)
         (trade : Trade.t) (s : num) (fs : float),
    PrimFloat.ltb 0 (MIN_TRADE_USDC cfg) = true ->
    Trade.price trade = None ->
    Trade.size trade = Some s ->
    Py.float s = Ok fs ->
    PrimFloat.is_finite fs = true ->
    CopyTrader._apply_filters cfg trade = Ok false
    /\ CopyTrader.execute_copy_trade cfg Client submit client trade
       = Ok (client, CopyTrader.Skipped CopyTrader.Filtered).
Proof.
  intros cfg Client submit client trade s fs Hmin Hprice Hsize Hfs Hfinite.
  assert (Hfilter : CopyTrader._apply_filters cfg trade = Ok false).
  { unfold CopyTrader._apply_filters.
    rewrite Hsize, Hprice. simpl. rewrite Hfs. simpl.
    destruct (PrimFloat.eqb fs 0); [reflexivity|].
    change PrimFloat.zero with 0%float.
    now rewrite (finite_times_zero_below_positive fs _ Hfinite Hmin). }
  split; [exact Hfilter|].
  unfold CopyTrader.execute_copy_trade, CopyTrader.build_order.
  now rewrite Hfilter.
Qed.

Lemma X8_witness_minimum_of_1 :
  CopyTrader._apply_filters config_min_1 trade_without_price = Ok false
  /\ CopyTrader.execute_copy_trade config_min_1 unit accepting tt
       trade_without_price
     = Ok (tt, CopyTrader.Skipped CopyTrader.Filtered).
Proof.
  exact (X8_record_without_price_is_skipped_under_a_positive_minimum config_min_1
           unit accepting tt trade_without_price (NInt 10) 10%float
           eq_refl eq_refl eq_refl eq_refl eq_refl).
Defined.

(** X9.  No order is ever built at a price of zero (0, 0.0 or -0.0), whatever
    the configuration: the record is skipped or the sizing raises
    [ZeroDivisionError], and nothing is submitted. *)
Theorem X9_no_order_is_built_at_price_zero :
  forall (cfg : Config) (trade : Trade.t) (p : num) (fp : float),
    Trade.price trade = Some p ->
    Py.float p = Ok fp ->
    PrimFloat.eqb fp 0 = true ->
    (CopyTrader.build_order cfg trade = Ok (CopyTrader.Skip CopyTrader.Filtered)
     \/ CopyTrader.build_order cfg trade = Ok (CopyTrader.Skip CopyTrader.TooSmall)
     \/ exists e, CopyTrader.build_order cfg trade = Raise e)
    /\ (forall (Client : Type) (submit : Client -> OrderArgs.t -> Client * reply)
               (client client' : Client) (order : OrderArgs.t) (r : reply),
          CopyTrader.execute_copy_trade cfg Client submit client trade
          <> Ok (client', CopyTrader.Submitted order r)).
Proof.
  intros cfg trade p fp Hp Hfp Hzero.
  assert (Hnone : forall order,
             CopyTrader.build_order cfg trade <> Ok (CopyTrader.Order order)).
  { intros order Hbuild.
    destruct (build_order_shape cfg trade order Hbuild)
      as (fp' & fs & sd & tok & _ & _ & (p' & Hp' & Hfp') & _ & Hnonzero & _).
    rewrite Hp in Hp'. injection Hp' as <-.
    rewrite Hfp in Hfp'. injection Hfp' as <-.
    congruence. }
  split.
  - destruct (CopyTrader.build_order cfg trade) as [[[|]|order]|e] eqn:Hbuild.
    + now left.
    + right. now left.
    + destruct (Hnone order eq_refl).
    + right. right. now exists e.
  - intros Client submit client client' order r Hexec.
    apply submitted_was_built in Hexec. exact (Hnone order (proj1 Hexec)).
Qed.

Lemma X9_witness_price_zero :
  CopyTrader.build_order config trade_at_zero_price
    = Ok (CopyTrader.Skip CopyTrader.Filtered)
  \/ CopyTrader.build_order config trade_at_zero_price
     = Ok (CopyTrader.Skip CopyTrader.TooSmall)
  \/ exists e, CopyTrader.build_order config trade_at_zero_price = Raise e.
Proof.
  exact (proj1 (X9_no_order_is_built_at_price_zero config trade_at_zero_price
                  (NInt 0) 0%float eq_refl eq_refl eq_refl)).
Defined.

(** X10.  The key [conditionId] is read whether or not the record has a
    title: an eligible record with a price, a side and an asset but without
    [conditionId] raises [KeyError] out of [execute_copy_trade], even when
    its title is there, and nothing is submitted. *)
Theorem X10_condition_id_is_required_even_with_a_title :
  forall (cfg : Config) (Client : Type)
         (submit : Client -> OrderArgs.t -> Client * reply) (client : Client)
         (trade : Trade.t) (p : num) (fp : float) (sd tok : string),
    CopyTrader._apply_filters cfg trade = Ok true ->
    Trade.price trade = Some p -> Py.float p = Ok fp ->
    Trade.side trade = Some sd ->
    Trade.asset trade = Some tok ->
    Trade.conditionId trade = None ->
    CopyTrader.build_order cfg trade = Raise (KeyError "conditionId")
    /\ CopyTrader.execute_copy_trade cfg Client submit client trade
       = Raise (KeyError "conditionId").
Proof.
  intros cfg Client submit client trade p fp sd tok Hpass Hp Hfp Hsd Htok Hcid.
  destruct (apply_filters_true cfg trade Hpass)
    as (s & fs & _ & Hs & Hfs & _).
  assert (Hbuild : CopyTrader.build_order cfg trade
                   = Raise (KeyError "conditionId")).
  { unfold CopyTrader.build_order.
    rewrite Hpass, Hp, Hs, Hsd, Htok, Hcid. simpl.
    rewrite Hfp, Hfs. reflexivity. }
  split; [exact Hbuild|].
  unfold CopyTrader.execute_copy_trade. now rewrite Hbuild.
Qed.

Lemma X10_witness_title_without_condition_id :
  CopyTrader.build_order config trade_without_condition_id
    = Raise (KeyError "conditionId")
  /\ CopyTrader.execute_copy_trade config unit accepting tt
       trade_without_condition_id
     = Raise (KeyError "conditionId").
Proof.
  exact (X10_condition_id_is_required_even_with_a_title config unit accepting tt
           trade_without_condition_id (NFloat 0.5) 0.5%float BUY "token"
           eq_refl eq_refl eq_refl eq_refl eq_refl eq_refl).
Defined.

(** X11.  Every order built is for the asset of the trade, and its side is
    one of the two constants of the gateway: BUY when the side of the trade
    is exactly the string BUY, and SELL for every other string (a side
    spelled [buy] is copied as a SELL). *)
Theorem X11_order_is_for_the_asset_and_sells_unless_side_is_BUY :
  forall (cfg : Config) (trade : Trade.t) (order : OrderArgs.t),
    CopyTrader.build_order cfg trade = Ok (CopyTrader.Order order) ->
    Trade.asset trade = Some (OrderArgs.token_id order)
    /\ ((Trade.side trade = Some "BUY"%string /\ OrderArgs.side order = BUY)
        \/ (exists sd, Trade.side trade = Some sd /\ sd <> "BUY"%string
                       /\ OrderArgs.side order = SELL)).
Proof.
  intros cfg trade order Hbuild.
  destruct (build_order_shape cfg trade order Hbuild)
    as (fp & fs & sd & tok & Hsd & Htok & _ & _ & _ & _ & ->).
  simpl. split; [exact Htok|].
  destruct (String.eqb_spec sd "BUY") as [-> | Hother].
  - left. split; [exact Hsd | reflexivity].
  - right. exists sd. repeat split; assumption.
Qed.

Lemma X11_witness_side_in_lower_case :
  Trade.asset trade_bought_in_lower_case = Some "token"%string
  /\ ((Trade.side trade_bought_in_lower_case = Some "BUY"%string /\ SELL = BUY)
      \/ (exists sd, Trade.side trade_bought_in_lower_case = Some sd
                     /\ sd <> "BUY"%string /\ SELL = SELL)).
Proof.
  exact (X11_order_is_for_the_asset_and_sells_unless_side_is_BUY config
           trade_bought_in_lower_case
           {| OrderArgs.token_id := "token";
              OrderArgs.price := 0.2%float;
              OrderArgs.size := 15%float;
              OrderArgs.side := SELL |}
           eq_refl).
Defined.

(** X12.  Every order built went through both limits: the amount copied,
    computed from the price and the size of the trade, is not above the
    maximum nor below the minimum trade value, the price is not zero, and the
    size of the order, the larger of amount over price and the share floor,
    is not below the floor. *)
Theorem X12_order_respects_the_clamp_and_the_floor :
  forall (cfg : Config) (trade : Trade.t) (order : OrderArgs.t),
    CopyTrader.build_order cfg trade = Ok (CopyTrader.Order order) ->
    exists (p s : num) (fp fs : float),
      Trade.price trade = Some p /\ Py.float p = Ok fp
      /\ Trade.size trade = Some s /\ Py.float s = Ok fs
      /\ PrimFloat.eqb fp 0 = false
      /\ PrimFloat.ltb (MAX_TRADE_USDC cfg) (spec_copied_amount cfg fp fs) = false
      /\ PrimFloat.ltb (spec_copied_amount cfg fp fs) (MIN_TRADE_USDC cfg) = false
      /\ OrderArgs.size order =
           Py.max (PrimFloat.div (spec_copied_amount cfg fp fs) fp)
                  (MIN_TRADE_SIZE cfg)
      /\ PrimFloat.ltb (OrderArgs.size order) (MIN_TRADE_SIZE cfg) = false.
Proof.
  intros cfg trade order Hbuild.
  destruct (build_order_shape cfg trade order Hbuild)
    as (fp & fs & sd & tok & _ & _ & (p & Hp & Hfp) & (s & Hs & Hfs)
        & Hnonzero & Hmin & ->).
  exists p, s, fp, fs. simpl.
  repeat split; try assumption.
  - apply py_min_not_above.
  - apply py_max_not_below.
Qed.

Lemma X12_witness_1_share_at_090 :
  exists (p s : num) (fp fs : float),
    Trade.price trade_1_at_090 = Some p /\ Py.float p = Ok fp
    /\ Trade.size trade_1_at_090 = Some s /\ Py.float s = Ok fs
    /\ PrimFloat.eqb fp 0 = false
    /\ PrimFloat.ltb (MAX_TRADE_USDC config) (spec_copied_amount config fp fs) = false
    /\ PrimFloat.ltb (spec_copied_amount config fp fs) (MIN_TRADE_USDC config) = false
    /\ 5%float =
         Py.max (PrimFloat.div (spec_copied_amount config fp fs) fp)
                (MIN_TRADE_SIZE config)
    /\ PrimFloat.ltb 5 (MIN_TRADE_SIZE config) = false.
Proof.
  exact (X12_order_respects_the_clamp_and_the_floor config trade_1_at_090
           {| OrderArgs.token_id := "token";
              OrderArgs.price := 0.9%float;
              OrderArgs.size := 5%float;
              OrderArgs.side := BUY |}
           eq_refl).
Defined.

(** What a callback keeps over a batch, it keeps over a run. *)
Lemma run_callback_invariant (C : Type) (callback : C -> Trade.t -> result C)
    (P : C -> Prop) :
  (forall c trade c', P c -> callback c trade = Ok c' -> P c') ->
  forall feed self self' c c',
    P c ->
    TradeListener.run_polling_loop C callback self c feed = Ok (self', c') ->
    P c'.
Proof.
  intros Hstep.
  assert (Hbatch : forall trades c c',
             P c -> TradeListener.for_each C callback c trades = Ok c' -> P c').
  { induction trades as [|trade rest IH]; intros c c' Hc; simpl.
    - intros H. inversion H; subst. exact Hc.
    - destruct (callback c trade) as [c1|e] eqn:Hcall; simpl; [|discriminate].
      apply IH. exact (Hstep c trade c1 Hc Hcall). }
  induction feed as [|r rest IH]; intros self self' c c' Hc; simpl.
  - intros H. inversion H; subst. exact Hc.
  - destruct (TradeListener.poll_cycle C callback self c r)
      as [[self1 c1]|e] eqn:Hcycle; simpl; [|discriminate].
    apply IH.
    unfold TradeListener.poll_cycle in Hcycle.
    destruct (TradeListener._fetch_new_trades self r) as [|first others].
    + inversion Hcycle; subst. exact Hc.
    + destruct (TradeListener.for_each C callback c (first :: others))
        as [c2|e] eqn:Hfor; simpl in Hcycle; [|discriminate].
      inversion Hcycle; subst. exact (Hbatch _ _ _ Hc Hfor).
Qed.

(** One call of the callback adds one outcome, the one of the trade. *)
Lemma callback_step (cfg : Config) (Client : Type)
    (submit : Client -> OrderArgs.t -> Client * reply)
    (c c' : Client * list CopyTrader.outcome) (trade : Trade.t) :
  CopyTrader.callback cfg Client submit c trade = Ok c' ->
  exists o,
    CopyTrader.execute_copy_trade cfg Client submit (fst c) trade = Ok (fst c', o)
    /\ snd c' = snd c ++ [o].
Proof.
  unfold CopyTrader.callback.
  destruct (CopyTrader.execute_copy_trade cfg Client submit (fst c) trade)
    as [[client1 o]|e]; simpl; [|discriminate].
  intros H. inversion H. exists o. split; reflexivity.
Qed.

(** X13.  Over any run of the polling loop with [execute_copy_trade] as the
    callback, whatever the feed and whatever the gateway answers, every order
    submitted has side BUY or SELL and a size that is not below the share
    floor. *)
Theorem X13_every_order_of_a_run_is_within_limits :
  forall (cfg : Config) (Client : Type)
         (submit : Client -> OrderArgs.t -> Client * reply)
         (feed : list TradeListener.response)
         (self self' : TradeListener.t) (client client' : Client)
         (log : list CopyTrader.outcome),
    TradeListener.run_polling_loop _ (CopyTrader.callback cfg Client submit)
      self (client, []) feed = Ok (self', (client', log)) ->
    Forall (outcome_within_limits cfg) log.
Proof.
  intros cfg Client submit feed self self' client client' log Hrun.
  apply (run_callback_invariant _ (CopyTrader.callback cfg Client submit)
           (fun c => Forall (outcome_within_limits cfg) (snd c)))
    with (c := (client, [])) (c' := (client', log)) in Hrun;
    [exact Hrun | | constructor].
  intros c trade c' Hc Hcall.
  destruct (callback_step _ _ _ _ _ _ Hcall) as (o & Hexec & ->).
  apply Forall_app. split; [exact Hc|]. constructor; [|constructor].
  destruct o as [why|order r]; simpl; [exact I|].
  apply submitted_was_built in Hexec.
  exact (built_order_within_limits cfg trade order (proj1 Hexec)).
Qed.

Lemma X13_witness_two_polls :
  Forall (outcome_within_limits config)
    [CopyTrader.Submitted
       {| OrderArgs.token_id := "token"; OrderArgs.price := 0.5%float;
          OrderArgs.size := 5%float; OrderArgs.side := BUY |} (Response true);
     CopyTrader.Submitted
       {| OrderArgs.token_id := "token"; OrderArgs.price := 0.5%float;
          OrderArgs.size := 5%float; OrderArgs.side := BUY |} (Response true);
     CopyTrader.Submitted
       {| OrderArgs.token_id := "token"; OrderArgs.price := 0.5%float;
          OrderArgs.size := 5%float; OrderArgs.side := BUY |} (Response true);
     CopyTrader.Submitted
       {| OrderArgs.token_id := "token"; OrderArgs.price := 0.5%float;
          OrderArgs.size := 5%float; OrderArgs.side := BUY |} (Response true)].
Proof.
  exact (X13_every_order_of_a_run_is_within_limits config unit accepting
           feed_two_polls (TradeListener.init "0xTarget" 2)
           (TradeListener.init "0xTarget" 6) tt tt _ eq_refl).
Defined.

(** X14.  The gateway receives exactly the orders the outcomes record as
    submitted, once each and in the order of the outcomes: an order is never
    submitted again, whether the gateway accepted it, refused it or raised,
    and a skipped trade never reaches the gateway. *)
Theorem X14_gateway_receives_each_submitted_order_once :
  forall (cfg : Config) (answer : list OrderArgs.t -> OrderArgs.t -> reply)
         (feed : list TradeListener.response)
         (self self' : TradeListener.t)
         (received : list OrderArgs.t) (log : list CopyTrader.outcome),
    TradeListener.run_polling_loop _ (CopyTrader.callback cfg _ (journal answer))
      self ([], []) feed = Ok (self', (received, log)) ->
    received = submitted_orders log.
Proof.
  intros cfg answer feed self self' received log Hrun.
  apply (run_callback_invariant _ (CopyTrader.callback cfg _ (journal answer))
           (fun c => fst c = submitted_orders (snd c)))
    with (c := ([], [])) (c' := (received, log)) in Hrun;
    [exact Hrun | | reflexivity].
  intros c trade c' Hc Hcall.
  destruct (callback_step _ _ _ _ _ _ Hcall) as (o & Hexec & ->).
  unfold submitted_orders in *. rewrite flat_map_app. simpl.
  destruct o as [why|order r].
  - apply skipped_leaves_client in Hexec. rewrite Hexec, Hc.
    now rewrite app_nil_r.
  - apply submitted_was_built in Hexec. destruct Hexec as [_ Hsubmit].
    unfold journal in Hsubmit. inversion Hsubmit as [[Hreceived Hanswer]].
    now rewrite Hc.
Qed.

Lemma X14_witness_two_polls :
  [ {| OrderArgs.token_id := "token"; OrderArgs.price := 0.5%float;
       OrderArgs.size := 5%float; OrderArgs.side := BUY |};
    {| OrderArgs.token_id := "token"; OrderArgs.price := 0.5%float;
       OrderArgs.size := 5%float; OrderArgs.side := BUY |};
    {| OrderArgs.token_id := "token"; OrderArgs.price := 0.5%float;
       OrderArgs.size := 5%float; OrderArgs.side := BUY |};
    {| OrderArgs.token_id := "token"; OrderArgs.price := 0.5%float;
       OrderArgs.size := 5%float; OrderArgs.side := BUY |} ]
  = submitted_orders
      [CopyTrader.Submitted
         {| OrderArgs.token_id := "token"; OrderArgs.price := 0.5%float;
            OrderArgs.size := 5%float; OrderArgs.side := BUY |} Raised;
       CopyTrader.Submitted
         {| OrderArgs.token_id := "token"; OrderArgs.price := 0.5%float;
            OrderArgs.size := 5%float; OrderArgs.side := BUY |} Raised;
       CopyTrader.Submitted
         {| OrderArgs.token_id := "token"; OrderArgs.price := 0.5%float;
            OrderArgs.size := 5%float; OrderArgs.side := BUY |} Raised;
       CopyTrader.Submitted
         {| OrderArgs.token_id := "token"; OrderArgs.price := 0.5%float;
            OrderArgs.size := 5%float; OrderArgs.side := BUY |} Raised].
Proof.
  exact (X14_gateway_receives_each_submitted_order_once config
           (fun _ _ => Raised) feed_two_polls
           (TradeListener.init "0xTarget" 2) (TradeListener.init "0xTarget" 6)
           _ _ eq_refl).
Defined.

(** Whether [execute_copy_trade] returns or raises does not depend on the
    gateway. *)
Lemma execute_completes_with_any_gateway (cfg : Config)
    (Client1 Client2 : Type)
    (submit1 : Client1 -> OrderArgs.t -> Client1 * reply)
    (submit2 : Client2 -> OrderArgs.t -> Client2 * reply)
    (client1 : Client1) (client2 : Client2) (trade : Trade.t)
    (r1 : Client1 * CopyTrader.outcome) :
  CopyTrader.execute_copy_trade cfg Client1 submit1 client1 trade = Ok r1 ->
  exists r2,
    CopyTrader.execute_copy_trade cfg Client2 submit2 client2 trade = Ok r2.
Proof.
  unfold CopyTrader.execute_copy_trade.
  destruct (CopyTrader.build_order cfg trade) as [[why|order]|e]; simpl.
  - intros _. eexists. reflexivity.
  - intros _. destruct (submit2 client2 order). eexists. reflexivity.
  - discriminate.
Qed.

(** X5.  With [execute_copy_trade] as the callback, what the gateway does
    never reaches the watcher: a run that completes with one gateway
    completes with any other gateway on the same feed, and ends in the same
    watcher state.  The mark moves past a trade whose order the gateway
    refused, or for which it raised, as it moves past an accepted one: no
    later poll returns that trade again. *)
Theorem X5_watcher_state_is_independent_of_the_gateway :
  forall (cfg : Config) (Client1 Client2 : Type)
         (submit1 : Client1 -> OrderArgs.t -> Client1 * reply)
         (submit2 : Client2 -> OrderArgs.t -> Client2 * reply)
         (feed : list TradeListener.response)
         (self self' : TradeListener.t)
         (c1 c1' : Client1 * list CopyTrader.outcome)
         (c2 : Client2 * list CopyTrader.outcome),
    TradeListener.run_polling_loop _ (CopyTrader.callback cfg Client1 submit1)
      self c1 feed = Ok (self', c1') ->
    exists c2',
      TradeListener.run_polling_loop _ (CopyTrader.callback cfg Client2 submit2)
        self c2 feed = Ok (self', c2').
Proof.
  intros cfg Client1 Client2 submit1 submit2.
  assert (Hbatch : forall trades c1 c1' c2,
             TradeListener.for_each _ (CopyTrader.callback cfg Client1 submit1)
               c1 trades = Ok c1' ->
             exists c2',
               TradeListener.for_each _ (CopyTrader.callback cfg Client2 submit2)
                 c2 trades = Ok c2').
  { induction trades as [|trade rest IH]; intros c1 c1' c2; simpl.
    - intros _. now exists c2.
    - unfold CopyTrader.callback at 1 3.
      destruct (CopyTrader.execute_copy_trade cfg Client1 submit1 (fst c1) trade)
        as [[client1 o1]|e] eqn:Hexec; simpl; [|discriminate].
      destruct (execute_completes_with_any_gateway cfg _ _ submit1 submit2
                  (fst c1) (fst c2) trade _ Hexec) as ([client2 o2] & ->).
      simpl. apply IH. }
  induction feed as [|r rest IH]; intros self self' c1 c1' c2; simpl.
  - intros H. inversion H; subst. now exists c2.
  - destruct (TradeListener.poll_cycle _ (CopyTrader.callback cfg Client1 submit1)
                self c1 r) as [[self1 d1]|e] eqn:Hcycle; simpl; [|discriminate].
    intros Hrest.
    assert (Hother : exists d2,
               TradeListener.poll_cycle _ (CopyTrader.callback cfg Client2 submit2)
                 self c2 r = Ok (self1, d2)).
    { unfold TradeListener.poll_cycle in *.
      destruct (TradeListener._fetch_new_trades self r) as [|first others].
      - inversion Hcycle; subst. now exists c2.
      - destruct (TradeListener.for_each _ (CopyTrader.callback cfg Client1 submit1)
                    c1 (first :: others)) as [e1|e] eqn:Hfor;
          simpl in Hcycle; [|discriminate].
        destruct (Hbatch _ _ _ c2 Hfor) as (e2 & ->). simpl.
        inversion Hcycle; subst. eexists. reflexivity. }
    destruct Hother as (d2 & ->). simpl.
    exact (IH _ _ _ _ d2 Hrest).
Qed.

Lemma X5_witness_accepting_and_raising :
  exists c2',
    TradeListener.run_polling_loop _ (CopyTrader.callback config unit raising)
      (TradeListener.init "0xTarget" 2) (tt, []) feed_two_polls
    = Ok (TradeListener.init "0xTarget" 6, c2').
Proof.
  exact (X5_watcher_state_is_independent_of_the_gateway config unit unit
           accepting raising feed_two_polls
           (TradeListener.init "0xTarget" 2) (TradeListener.init "0xTarget" 6)
           (tt, []) _ (tt, []) eq_refl).
Defined.

(** Over a batch that completes, the gateway receives the orders built from
    the trades of the batch, in their order. *)
Lemma journal_batch (cfg : Config)
    (answer : list OrderArgs.t -> OrderArgs.t -> reply) (trades : list Trade.t) :
  forall c c',
    TradeListener.for_each _ (CopyTrader.callback cfg _ (journal answer)) c trades
    = Ok c' ->
    fst c' = fst c ++ built_orders cfg trades.
Proof.
  induction trades as [|trade rest IH]; intros c c'; simpl.
  - intros H. inversion H; subst. now rewrite app_nil_r.
  - unfold CopyTrader.callback at 1, CopyTrader.execute_copy_trade.
    destruct (CopyTrader.build_order cfg trade) as [[why|order]|e]; simpl;
      [| |discriminate]; intros Hrest; apply IH in Hrest; simpl in Hrest.
    + exact Hrest.
    + rewrite Hrest, <- app_assoc. reflexivity.
Qed.

(** X15.  Over a run that completes, the gateway receives exactly the orders
    the copy engine builds from the trades the watcher delivers, one for each
    trade that is not skipped, in the order of delivery: the trades handed to
    the callback are those the recorder is handed on the same feed, and the
    orders received are the orders built from them. *)
Theorem X15_gateway_receives_the_orders_of_the_trades_delivered :
  forall (cfg : Config) (answer : list OrderArgs.t -> OrderArgs.t -> reply)
         (feed : list TradeListener.response)
         (self self' : TradeListener.t)
         (received : list OrderArgs.t) (log : list CopyTrader.outcome),
    TradeListener.run_polling_loop _ (CopyTrader.callback cfg _ (journal answer))
      self ([], []) feed = Ok (self', (received, log)) ->
    exists delivered,
      TradeListener.run_polling_loop _ recorder self [] feed = Ok (self', delivered)
      /\ received = built_orders cfg delivered.
Proof.
  intros cfg answer feed.
  assert (Hgen : forall self self' c c',
             TradeListener.run_polling_loop _
               (CopyTrader.callback cfg _ (journal answer)) self c feed
             = Ok (self', c') ->
             exists batch,
               (forall delivered0,
                   TradeListener.run_polling_loop _ recorder self delivered0 feed
                   = Ok (self', delivered0 ++ batch))
               /\ fst c' = fst c ++ built_orders cfg batch).
  { induction feed as [|r rest IH]; intros self self' c c'; simpl.
    - intros H. inversion H; subst. exists []. split.
      + intros delivered0. now rewrite app_nil_r.
      + now rewrite app_nil_r.
    - destruct (TradeListener.poll_cycle _
                  (CopyTrader.callback cfg _ (journal answer)) self c r)
        as [[self1 c1]|e] eqn:Hcycle; simpl; [|discriminate].
      intros Hrest.
      destruct (IH _ _ _ _ Hrest) as (batch & Hrec & Horders).
      exists (TradeListener._fetch_new_trades self r ++ batch). split.
      + intros delivered0.
        rewrite (poll_cycle_recorder _ _ _ _ _ _ _ delivered0 Hcycle). simpl.
        rewrite Hrec, <- app_assoc. reflexivity.
      + assert (Hturn : fst c1 = fst c
                        ++ built_orders cfg (TradeListener._fetch_new_trades self r)).
        { unfold TradeListener.poll_cycle in Hcycle.
          destruct (TradeListener._fetch_new_trades self r) as [|first others].
          - inversion Hcycle; subst. simpl. now rewrite app_nil_r.
          - destruct (TradeListener.for_each _
                        (CopyTrader.callback cfg _ (journal answer))
                        c (first :: others)) as [c2|e] eqn:Hfor;
              simpl in Hcycle; [|discriminate].
            inversion Hcycle; subst.
            exact (journal_batch _ _ _ _ _ Hfor). }
        rewrite Horders, Hturn. unfold built_orders.
        rewrite flat_map_app, <- app_assoc. reflexivity. }
  intros self self' received log Hrun.
  destruct (Hgen _ _ _ _ Hrun) as (batch & Hrec & Horders).
  exists batch. split; [exact (Hrec [])|]. exact Horders.
Qed.

Lemma X15_witness_two_polls :
  exists delivered,
    TradeListener.run_polling_loop _ recorder (TradeListener.init "0xTarget" 2) []
      feed_two_polls = Ok (TradeListener.init "0xTarget" 6, delivered)
    /\ [ {| OrderArgs.token_id := "token"; OrderArgs.price := 0.5%float;
            OrderArgs.size := 5%float; OrderArgs.side := BUY |};
         {| OrderArgs.token_id := "token"; OrderArgs.price := 0.5%float;
            OrderArgs.size := 5%float; OrderArgs.side := BUY |};
         {| OrderArgs.token_id := "token"; OrderArgs.price := 0.5%float;
            OrderArgs.size := 5%float; OrderArgs.side := BUY |};
         {| OrderArgs.token_id := "token"; OrderArgs.price := 0.5%float;
            OrderArgs.size := 5%float; OrderArgs.side := BUY |} ]
       = built_orders config delivered.
Proof.
  exact (X15_gateway_receives_the_orders_of_the_trades_delivered config
           (fun _ _ => Raised) feed_two_polls
           (TradeListener.init "0xTarget" 2) (TradeListener.init "0xTarget" 6)
           _ _ eq_refl).
Defined.

(** A finite amount times a price of zero is not below a minimum that is not
    positive. *)
Lemma finite_times_zero_not_below_nonpositive (f minimum : float) :
  PrimFloat.is_finite f = true ->
  PrimFloat.leb minimum 0 = true ->
  PrimFloat.ltb (PrimFloat.mul f 0) minimum = false.
Proof.
  intros Hfinite Hmin.
  rewrite leb_spec in Hmin. rewrite ltb_spec, mul_spec.
  change (Prim2SF 0) with (S754_zero false) in *.
  unfold SF64mul.
  destruct (finite_cases f Hfinite) as [(s & ->) | (s & m & e & ->)]; simpl;
    destruct (Prim2SF minimum) as [s'|s'| |s' m' e']; unfold SFltb, SFleb in *;
    simpl in *; try congruence; destruct s'; simpl in *; congruence.
Qed.

(** X17.  Under a configuration whose minimum trade value is zero or
    negative, as the one of [config.py], every record without [price] whose
    size is finite and not zero and whose slug is absent or without the
    marker passes the filter, and [execute_copy_trade] then raises
    [KeyError] for the key [price], whatever the gateway. *)
Theorem X17_record_without_price_raises_under_a_minimum_of_zero :
  forall (cfg : Config) (Client : Type)
         (submit : Client -> OrderArgs.t -> Client * reply) (client : Client)
         (trade : Trade.t) (s : num) (fs : float),
    PrimFloat.leb (MIN_TRADE_USDC cfg) 0 = true ->
    Trade.price trade = None ->
    Trade.size trade = Some s ->
    Py.float s = Ok fs ->
    PrimFloat.is_finite fs = true ->
    PrimFloat.eqb fs 0 = false ->
    Py.truthy (get (Trade.slug trade) EmptyString)
      && Py.contains "4h" (get (Trade.slug trade) EmptyString) = false ->
    CopyTrader._apply_filters cfg trade = Ok true
    /\ CopyTrader.execute_copy_trade cfg Client submit client trade
       = Raise (KeyError "price").
Proof.
  intros cfg Client submit client trade s fs Hmin Hprice Hsize Hfs Hfinite
    Hnonzero Hslug.
  assert (Hfilter : CopyTrader._apply_filters cfg trade = Ok true).
  { unfold CopyTrader._apply_filters.
    rewrite Hsize, Hprice. simpl. rewrite Hfs. simpl. rewrite Hnonzero.
    change PrimFloat.zero with 0%float.
    rewrite (finite_times_zero_not_below_nonpositive fs _ Hfinite Hmin).
    now rewrite Hslug. }
  split; [exact Hfilter|].
  unfold CopyTrader.execute_copy_trade, CopyTrader.build_order.
  rewrite Hfilter, Hprice. reflexivity.
Qed.

Lemma X17_witness_shipped_configuration :
  CopyTrader._apply_filters config trade_without_price = Ok true
  /\ CopyTrader.execute_copy_trade config unit accepting tt trade_without_price
     = Raise (KeyError "price").
Proof.
  exact (X17_record_without_price_raises_under_a_minimum_of_zero config unit
           accepting tt trade_without_price (NInt 10) 10%float
           eq_refl eq_refl eq_refl eq_refl eq_refl eq_refl eq_refl).
Defined.



